(** * A shallow embedding of PyMDFS (pymdfs): fan-out query resolution,
    filename wildcard inference, format dispatch and a few decoders. *)

From Stdlib Require Import String Ascii ZArith QArith Bool Lia List Sorting.Sorted.
From Stdlib Require Structures.OrdersEx QArith.Qcanon.
Import ListNotations.
Open Scope nat_scope.

(** ** Generic list facts used by the Cartesian-product model *)

Lemma flat_map_length_uniform {A B} (f : A -> list B) (l : list A) (m : nat) :
  (forall a, In a l -> length (f a) = m) ->
  length (flat_map f l) = (length l * m)%nat.
Proof.
  induction l as [|a l IH]; intros Hm; simpl; [reflexivity|].
  rewrite length_app, Hm by (left; reflexivity).
  rewrite IH by (intros b Hb; apply Hm; right; exact Hb). reflexivity.
Qed.

Lemma nth_error_flat_map_uniform {A B} (f : A -> list B) (l : list A) (m i j : nat) (x : A) :
  (forall a, In a l -> length (f a) = m) ->
  nth_error l i = Some x -> (j < m)%nat ->
  nth_error (flat_map f l) (i * m + j) = nth_error (f x) j.
Proof.
  revert i. induction l as [|a l IH]; intros i Hm Hi Hj; [destruct i; discriminate|].
  destruct i as [|i]; simpl in *.
  - injection Hi as <-. rewrite nth_error_app1 by (rewrite Hm by (left; reflexivity); lia).
    reflexivity.
  - rewrite nth_error_app2 by (rewrite Hm by (left; reflexivity); lia).
    rewrite Hm by (left; reflexivity).
    replace (m + i * m + j - m)%nat with (i * m + j)%nat by lia.
    apply IH; auto.
Qed.

Lemma nth_error_map_eq {A B} (f : A -> B) (l : list A) (j : nat) (r : A) :
  nth_error l j = Some r -> nth_error (map f l) j = Some (f r).
Proof. intros H. rewrite nth_error_map, H. reflexivity. Qed.

(** ** Fan-out query resolution: [MdfsClient.sel] (src/pymdfs/client.py) *)

Module FanOut.

(** Python's [itertools.product] over five iterables: the first argument
    varies slowest, the last fastest. *)
Definition product5 {A B C D E : Type} (la : list A) (lb : list B) (lc : list C)
    (ld : list D) (le : list E) : list (A * B * C * D * E) :=
  flat_map (fun a =>
    flat_map (fun b =>
      flat_map (fun c =>
        flat_map (fun d =>
          map (fun e => (a, b, c, d, e)) le) ld) lc) lb) la.

Lemma product5_length {A B C D E : Type} (la : list A) (lb : list B) (lc : list C)
    (ld : list D) (le : list E) :
  length (product5 la lb lc ld le) =
  (length la * (length lb * (length lc * (length ld * length le))))%nat.
Proof.
  unfold product5.
  apply flat_map_length_uniform; intros a _.
  apply flat_map_length_uniform; intros b _.
  apply flat_map_length_uniform; intros c _.
  apply flat_map_length_uniform; intros d _.
  apply length_map.
Qed.

Lemma mixed_radix_lt (b r nb m : nat) : (b < nb -> r < m -> b * m + r < nb * m)%nat.
Proof. intros H1 H2. nia. Qed.

Lemma product5_nth_error {A B C D E : Type} (la : list A) (lb : list B) (lc : list C)
    (ld : list D) (le : list E) a b c d e xa xb xc xd xe :
  nth_error la a = Some xa -> nth_error lb b = Some xb -> nth_error lc c = Some xc ->
  nth_error ld d = Some xd -> nth_error le e = Some xe ->
  nth_error (product5 la lb lc ld le)
    ((((a * length lb + b) * length lc + c) * length ld + d) * length le + e)
  = Some (xa, xb, xc, xd, xe).
Proof.
  intros Ha Hb Hc Hd He.
  pose proof (proj1 (nth_error_Some lb b) ltac:(congruence)) as Lb.
  pose proof (proj1 (nth_error_Some lc c) ltac:(congruence)) as Lc.
  pose proof (proj1 (nth_error_Some ld d) ltac:(congruence)) as Ld.
  pose proof (proj1 (nth_error_Some le e) ltac:(congruence)) as Le.
  set (nb := length lb) in *; set (nc := length lc) in *;
  set (nd := length ld) in *; set (ne := length le) in *.
  unfold product5.
  replace ((((a * nb + b) * nc + c) * nd + d) * ne + e)%nat
    with (a * (nb * (nc * (nd * ne))) + (b * (nc * (nd * ne)) + (c * (nd * ne) + (d * ne + e))))%nat
    by nia.
  assert (Re : (d * ne + e < nd * ne)%nat) by (apply mixed_radix_lt; lia).
  assert (Rd : (c * (nd * ne) + (d * ne + e) < nc * (nd * ne))%nat)
    by (apply mixed_radix_lt; lia).
  assert (Rc : (b * (nc * (nd * ne)) + (c * (nd * ne) + (d * ne + e)) < nb * (nc * (nd * ne)))%nat)
    by (apply mixed_radix_lt; lia).
  rewrite (nth_error_flat_map_uniform _ _ (nb * (nc * (nd * ne))) _ _ xa); [| |exact Ha|exact Rc].
  2:{ intros x _. apply flat_map_length_uniform; intros y _.
      apply flat_map_length_uniform; intros z _.
      apply flat_map_length_uniform; intros w _. apply length_map. }
  rewrite (nth_error_flat_map_uniform _ _ (nc * (nd * ne)) _ _ xb); [| |exact Hb|exact Rd].
  2:{ intros y _. apply flat_map_length_uniform; intros z _.
      apply flat_map_length_uniform; intros w _. apply length_map. }
  rewrite (nth_error_flat_map_uniform _ _ (nd * ne) _ _ xc); [| |exact Hc|exact Re].
  2:{ intros z _. apply flat_map_length_uniform; intros w _. apply length_map. }
  rewrite (nth_error_flat_map_uniform _ _ ne _ _ xd); [| |exact Hd|exact Le].
  2:{ intros w _. apply length_map. }
  rewrite nth_error_map, He. reflexivity.
Qed.

Section Sel.

(** Python [datetime] values, decoded artifacts ([xr.DataArray],
    [pd.DataFrame], ...), exceptions (instances of [Exception]) and the
    result of the [if merge:] block are opaque to the fan-out. *)
Variable datetime : Type.
Variable Value : Type.
Variable Exn : Type.
Variable Merged : Type.

(** Outcome of a Python call: a value or a raised [Exception]. *)
Inductive PyResult (A : Type) : Type :=
| Ok (a : A)
| Raise (e : Exn).
Arguments Ok {A} a.
Arguments Raise {A} e.

(** A keyword argument of [sel] that may be a scalar, [None] or a list
    (whose elements may themselves be [None]). *)
Inductive PyArg (A : Type) : Type :=
| ANone
| AScalar (a : A)
| AList (l : list (option A)).
Arguments ANone {A}.
Arguments AScalar {A} a.
Arguments AList {A} l.

(** [datasource (str)]: a string or a list of strings. *)
Inductive DsArg : Type :=
| DsStr (s : string)
| DsList (l : list string).

(** [datasource = [datasource] if isinstance(datasource, str) else datasource] *)
Definition norm_datasource (d : DsArg) : list string :=
  match d with
  | DsStr s => [s]
  | DsList l => l
  end.

(** [x = [x] if isinstance(x, T) or x is None else x] *)
Definition norm {A : Type} (x : PyArg A) : list (option A) :=
  match x with
  | ANone => [None]
  | AScalar a => [Some a]
  | AList l => l
  end.

(** One leaf request: [(datasource, inittime, fh, varname, leadtime)]. *)
Definition Leaf : Type :=
  (string * option datetime * option Z * option string * option datetime)%type.

(** [self._sel] called on one request tuple: the fetch, dispatch and decode of one
    leaf, with the caller's [kwargs] fixed for the whole call. *)
Variable _sel : Leaf -> PyResult Value.

(** The [if merge:] block applied to [datas]. *)
Variable merge_datas : list (option Value) -> PyResult Merged.

(** The nested [fetch] of [sel]: [except Exception] returns [None]. *)
Definition fetch (request : Leaf) : option Value :=
  match _sel request with
  | Ok v => Some v
  | Raise _ => None
  end.

Definition sel_requests (datasource : DsArg) (inittime : PyArg datetime)
    (fh : PyArg Z) (varname : PyArg string) (leadtime : PyArg datetime) : list Leaf :=
  product5 (norm_datasource datasource) (norm inittime) (norm fh)
    (norm varname) (norm leadtime).

Definition sel_datas datasource inittime fh varname leadtime : list (option Value) :=
  map fetch (sel_requests datasource inittime fh varname leadtime).

Inductive SelError : Type :=
| AllRequestsFailedError
| MergeRaised (e : Exn).

Inductive SelReturn : Type :=
| RList (l : list (option Value))
| ROne (x : option Value)
| RMerged (m : Merged).

Definition is_none {A : Type} (x : option A) : bool :=
  match x with None => true | Some _ => false end.

Definition sel (datasource : DsArg) (inittime : PyArg datetime) (fh : PyArg Z)
    (varname : PyArg string) (leadtime : PyArg datetime) (merge : bool)
    : SelError + SelReturn :=
  let requests := sel_requests datasource inittime fh varname leadtime in
  let datas := map fetch requests in
  if forallb is_none datas then inl AllRequestsFailedError
  else if merge then
    match merge_datas datas with
    | Ok m => inr (RMerged m)
    | Raise e => inl (MergeRaised e)
    end
  else inr (if (1 <? length requests)%nat then RList datas else ROne (hd None datas)).



(** C2: the leaf requests are the Cartesian product of the five normalised
    lists, enumerated with [datasource] slowest and [leadtime] fastest (the
    request at mixed-radix index [(a,b,c,d,e)] is the tuple of the [a]-th,
    ..., [e]-th elements); without [merge], a successful [sel] returns
    [datas] (index-aligned with the requests) when there is more than one
    request, and the single result unwrapped when there is exactly one. *)
Theorem sel_product_order (datasource : DsArg) (inittime : PyArg datetime)
    (fh : PyArg Z) (varname : PyArg string) (leadtime : PyArg datetime) :
  let D := norm_datasource datasource in
  let I := norm inittime in
  let F := norm fh in
  let V := norm varname in
  let L := norm leadtime in
  let requests := sel_requests datasource inittime fh varname leadtime in
  let datas := sel_datas datasource inittime fh varname leadtime in
  length requests = (length D * length I * length F * length V * length L)%nat
  /\ (forall a b c d e xa xb xc xd xe,
        nth_error D a = Some xa -> nth_error I b = Some xb -> nth_error F c = Some xc ->
        nth_error V d = Some xd -> nth_error L e = Some xe ->
        nth_error requests
          ((((a * length I + b) * length F + c) * length V + d) * length L + e)
        = Some (xa, xb, xc, xd, xe))
  /\ (forall out, sel datasource inittime fh varname leadtime false = inr out ->
        ((1 < length requests)%nat /\ out = RList datas /\ length datas = length requests
         /\ (forall j r, nth_error requests j = Some r -> nth_error datas j = Some (fetch r)))
        \/ (exists r, requests = [r] /\ out = ROne (fetch r))).
Proof.
  intros D I F V L requests datas. split; [|split].
  - subst requests. unfold sel_requests. etransitivity; [apply product5_length|]. subst D I F V L. lia.
  - intros a b c d e xa xb xc xd xe Ha Hb Hc Hd He. subst requests D I F V L. unfold sel_requests.
    exact (product5_nth_error _ _ _ _ _ a b c d e xa xb xc xd xe Ha Hb Hc Hd He).
  - intros out Hout. unfold sel in Hout. fold requests in Hout.
    destruct (forallb is_none (map fetch requests)) eqn:Hall; [discriminate|].
    injection Hout as <-.
    destruct (Nat.ltb_spec 1 (length requests)) as [Hlt|Hge].
    + left. repeat split; [exact Hlt| |].
      * unfold datas, sel_datas. apply length_map.
      * intros j r Hr. unfold datas, sel_datas. fold requests.
        apply nth_error_map_eq; exact Hr.
    + right. destruct requests as [|r [|r' rest]] eqn:Hreq; simpl in *.
      * discriminate.
      * exists r. split; reflexivity.
      * lia.
Qed.

End Sel.

End FanOut.

(** ** Filename wildcard inference: [MdfsClient.guess_filename_wildcard] *)

Module Wildcard.

Open Scope string_scope.

(** Filenames are modelled as ASCII strings; Python compares [str] values
    by code point, which on ASCII is the byte order of [String_as_OT]. *)
Definition str_le (a b : string) : bool :=
  match OrdersEx.String_as_OT.compare a b with Gt => false | _ => true end.

Fixpoint insert (x : string) (l : list string) : list string :=
  match l with
  | [] => [x]
  | y :: l' => if str_le x y then x :: l else y :: insert x l'
  end.

(** [sorted(...)] *)
Fixpoint sort (l : list string) : list string :=
  match l with
  | [] => []
  | x :: l' => insert x (sort l')
  end.

(** [xs[-1]], [None] standing for the [IndexError] of an empty list. *)
Fixpoint last_opt {A : Type} (l : list A) : option A :=
  match l with
  | [] => None
  | [x] => Some x
  | _ :: l' => last_opt l'
  end.

(** [latest = sorted(list(filelist.resultMap.keys()))[-1]] *)
Definition latest_name (resultMap : list (string * string)) : option string :=
  last_opt (sort (map fst resultMap)).

(** *** The pieces of the five regular expressions *)

(** [\d] on an ASCII character. *)
Definition is_digit (c : ascii) : bool :=
  let n := nat_of_ascii c in ((48 <=? n)%nat && (n <=? 57)%nat)%bool.

(** [\d{n}]: the digits matched and the rest. *)
Fixpoint take_digits (n : nat) (s : string) : option (string * string) :=
  match n with
  | O => Some ("", s)
  | S n' =>
    match s with
    | String c s' =>
      if is_digit c then
        match take_digits n' s' with
        | Some (d, r) => Some (String c d, r)
        | None => None
        end
      else None
    | EmptyString => None
    end
  end.

(** A literal character. *)
Definition take_char (ch : ascii) (s : string) : option string :=
  match s with
  | String c s' => if (c =? ch)%char then Some s' else None
  | EmptyString => None
  end.

(** [[._]]: the character matched and the rest. *)
Definition take_dot_or_underscore (s : string) : option (string * string) :=
  match s with
  | String c s' =>
    if ((c =? ".")%char || (c =? "_")%char)%bool then Some (String c "", s') else None
  | EmptyString => None
  end.

(** [$] without MULTILINE: end of string, or a final newline. *)
Definition at_end (s : string) : bool :=
  match s with
  | EmptyString => true
  | String c EmptyString => (c =? "010")%char
  | _ => false
  end.

Definition is_some {A : Type} (o : option A) : bool :=
  match o with Some _ => true | None => false end.

(** [re.match(r'.*' + tail, s)]: [.] does not match a newline. *)
Fixpoint match_dotstar (tail : string -> bool) (s : string) : bool :=
  tail s ||
  match s with
  | EmptyString => false
  | String c s' => negb (c =? "010")%char && match_dotstar tail s'
  end.

(** The part of each pattern after its leading [.*]. *)
Definition tail1 (s : string) : bool :=        (* (\d{14})\.(\d{3}) *)
  match take_digits 14 s with
  | Some (_, r) =>
    match take_char "." r with
    | Some r' => is_some (take_digits 3 r')
    | None => false
    end
  | None => false
  end.

Definition tail2 (s : string) : bool :=        (* (\d{8})\.(\d{3})$ *)
  match take_digits 8 s with
  | Some (_, r) =>
    match take_char "." r with
    | Some r' =>
      match take_digits 3 r' with
      | Some (_, r'') => at_end r''
      | None => false
      end
    | None => false
    end
  | None => false
  end.

(** [(\d{8})([._])(\d{k})]: the three groups and the rest. *)
Definition date_sep_time (k : nat) (s : string) : option ((string * string * string) * string) :=
  match take_digits 8 s with
  | Some (d, r) =>
    match take_dot_or_underscore r with
    | Some (sep, r') =>
      match take_digits k r' with
      | Some (t, r'') => Some ((d, sep, t), r'')
      | None => None
      end
    | None => None
    end
  | None => None
  end.

(** [(\d{14})]: the group and the rest. *)
Definition stamp14 (s : string) : option (string * string) :=
  take_digits 14 s.

Definition tail3 (s : string) : bool := is_some (date_sep_time 6 s).   (* then .* *)
Definition tail4 (s : string) : bool := is_some (date_sep_time 4 s).   (* then .* *)
Definition tail5 (s : string) : bool := is_some (stamp14 s).           (* then .* *)

Definition re_match1 := match_dotstar tail1.
Definition re_match2 := match_dotstar tail2.
Definition re_match3 := match_dotstar tail3.
Definition re_match4 := match_dotstar tail4.
Definition re_match5 := match_dotstar tail5.

(** *** [re.sub] with a pattern [(.* )X(.* )] (written with a space so that
    the comment stays closed) *)

(** The splits [(pre, post)] of [s] with [pre] free of newlines, shortest
    [pre] first. *)
Fixpoint nl_free_splits (s : string) : list (string * string) :=
  ("", s) ::
  match s with
  | EmptyString => []
  | String c s' =>
    if (c =? "010")%char then []
    else map (fun '(p, q) => (String c p, q)) (nl_free_splits s')
  end.

(** A greedy [.*]: up to the first newline. *)
Fixpoint span_line (s : string) : string * string :=
  match s with
  | EmptyString => ("", "")
  | String c s' =>
    if (c =? "010")%char then ("", s)
    else let '(p, q) := span_line s' in (String c p, q)
  end.

Fixpoint find_some {A B : Type} (f : A -> option B) (l : list A) : option B :=
  match l with
  | [] => None
  | x :: l' => match f x with Some y => Some y | None => find_some f l' end
  end.

(** The match of [(.* )X(.* )] at the start of [s]: the greedy first group
    backtracks from its longest choice. *)
Definition match_greedy {G : Type} (x : string -> option (G * string)) (s : string)
    : option (string * G * string * string) :=
  find_some (fun '(pre, post) =>
               match x post with
               | Some (g, rest) => let '(g5, rest') := span_line rest in Some (pre, g, g5, rest')
               | None => None
               end) (rev (nl_free_splits s)).

(** [re.sub]: leftmost non-overlapping matches, each replaced. *)
Fixpoint sub_fuel {G : Type} (x : string -> option (G * string))
    (repl : string -> G -> string -> string) (fuel : nat) (s : string) : string :=
  match fuel with
  | O => s
  | S f =>
    match match_greedy x s with
    | Some (g1, g, g5, rest) => repl g1 g g5 ++ sub_fuel x repl f rest
    | None =>
      match s with
      | EmptyString => EmptyString
      | String c s' => String c (sub_fuel x repl f s')
      end
    end
  end.

Definition re_sub {G : Type} (x : string -> option (G * string))
    (repl : string -> G -> string -> string) (s : string) : string :=
  sub_fuel x repl (S (String.length s)) s.

(** [re.sub(r'(.* )(\d{8})([._])(\d{6})(.* )',
            r'\g<1>{inittime:%Y%m%d}\g<3>{inittime:%H%M%S}\g<5>', latest)] *)
Definition re_sub3 (latest : string) : string :=
  re_sub (date_sep_time 6)
    (fun g1 '(_, g3, _) g5 => g1 ++ "{inittime:%Y%m%d}" ++ g3 ++ "{inittime:%H%M%S}" ++ g5)
    latest.

(** [re.sub(r'(.* )(\d{8})([._])(\d{4})(.* )',
            r'\g<1>{inittime:%Y%m%d}\g<3>{inittime:%H%M}\g<5>', latest)] *)
Definition re_sub4 (latest : string) : string :=
  re_sub (date_sep_time 4)
    (fun g1 '(_, g3, _) g5 => g1 ++ "{inittime:%Y%m%d}" ++ g3 ++ "{inittime:%H%M}" ++ g5)
    latest.

(** [re.sub(r'(.* )(\d{14})(.* )', r'\g<1>{inittime:%Y%m%d%H%M%S}\g<3>', latest)] *)
Definition re_sub5 (latest : string) : string :=
  re_sub stamp14 (fun g1 _ g3 => g1 ++ "{inittime:%Y%m%d%H%M%S}" ++ g3) latest.

Inductive WildcardError : Type :=
| IndexError                           (* empty listing: sorted([])[-1] *)
| UnrecognizedFilenamePatternError.    (* the final NotImplementedError *)

Definition guess_filename_wildcard (resultMap : list (string * string))
    : WildcardError + string :=
  match latest_name resultMap with
  | None => inl IndexError
  | Some latest =>
    if re_match1 latest then inr "{inittime:%Y%m%d%H%M%S}.{fh:03d}"
    else if re_match2 latest then inr "{inittime:%y%m%d%H}.{fh:03d}"
    else if re_match3 latest then inr (re_sub3 latest)
    else if re_match4 latest then inr (re_sub4 latest)
    else if re_match5 latest then inr (re_sub5 latest)
    else inl UnrecognizedFilenamePatternError
  end.

(** The five shapes in the order the source tries them, and the template
    each one yields. *)
Definition shape_matches (i : nat) (s : string) : bool :=
  match i with
  | 0 => re_match1 s
  | 1 => re_match2 s
  | 2 => re_match3 s
  | 3 => re_match4 s
  | 4 => re_match5 s
  | _ => false
  end.

Definition shape_template (i : nat) (s : string) : string :=
  match i with
  | 0 => "{inittime:%Y%m%d%H%M%S}.{fh:03d}"
  | 1 => "{inittime:%y%m%d%H}.{fh:03d}"
  | 2 => re_sub3 s
  | 3 => re_sub4 s
  | _ => re_sub5 s
  end.

(** *** Properties of the order and of [sort] *)

Definition str_rel (a b : string) : Prop := str_le a b = true.

Lemma str_le_iff (a b : string) :
  str_le a b = true <-> a = b \/ OrdersEx.String_as_OT.lt a b.
Proof.
  unfold str_le.
  destruct (OrdersEx.String_as_OT.compare_spec a b) as [H|H|H].
  - split; [intros _; left; exact H|reflexivity].
  - split; [intros _; right; exact H|reflexivity].
  - split; [discriminate|].
    intros [<-|H']; exfalso.
    + eapply (StrictOrder_Irreflexive a); exact H.
    + eapply (StrictOrder_Irreflexive a). eapply StrictOrder_Transitive; eassumption.
Qed.

Lemma str_le_refl (a : string) : str_le a a = true.
Proof. apply str_le_iff. left; reflexivity. Qed.

Lemma str_le_total (a b : string) : str_le a b = true \/ str_le b a = true.
Proof.
  destruct (OrdersEx.String_as_OT.compare_spec a b) as [H|H|H].
  - left. apply str_le_iff. left; exact H.
  - left. apply str_le_iff. right; exact H.
  - right. apply str_le_iff. right; exact H.
Qed.

Lemma str_le_trans (a b c : string) :
  str_le a b = true -> str_le b c = true -> str_le a c = true.
Proof.
  rewrite !str_le_iff. intros [<-|Hab] [<-|Hbc]; auto.
  right. eapply StrictOrder_Transitive; eassumption.
Qed.

Lemma in_insert (x y : string) (l : list string) :
  In y (insert x l) <-> y = x \/ In y l.
Proof.
  induction l as [|z l IH]; simpl; [firstorder congruence|].
  destruct (str_le x z); simpl; [firstorder congruence|].
  rewrite IH. firstorder congruence.
Qed.

Lemma in_sort (y : string) (l : list string) : In y (sort l) <-> In y l.
Proof.
  induction l as [|x l IH]; simpl; [tauto|].
  rewrite in_insert, IH. firstorder congruence.
Qed.

Lemma insert_sorted (x : string) (l : list string) :
  Sorted str_rel l -> Sorted str_rel (insert x l).
Proof.
  induction 1 as [|z l Hl IH Hhd]; simpl.
  - repeat constructor.
  - unfold str_rel in *. destruct (str_le x z) eqn:Exz.
    + constructor; [constructor; assumption|constructor; exact Exz].
    + assert (Ezx : str_le z x = true)
        by (destruct (str_le_total x z); congruence).
      constructor; [exact IH|].
      destruct l as [|w l]; simpl.
      * constructor. exact Ezx.
      * inversion Hhd; subst.
        destruct (str_le x w); constructor; assumption.
Qed.

Lemma sort_sorted (l : list string) : Sorted str_rel (sort l).
Proof.
  induction l as [|x l IH]; simpl; [constructor|]. apply insert_sorted; exact IH.
Qed.

Lemma last_opt_strongly_sorted (l : list string) (m : string) :
  StronglySorted str_rel l -> last_opt l = Some m ->
  In m l /\ forall y, In y l -> str_le y m = true.
Proof.
  induction 1 as [|x l Hl IH Hall]; [discriminate|].
  intros Hm. destruct l as [|w l].
  - injection Hm as <-. split; [left; reflexivity|].
    intros y [<-|[]]. apply str_le_refl.
  - specialize (IH Hm) as [Hin Hmax]. split; [right; exact Hin|].
    intros y [<-|Hy]; [|apply Hmax; exact Hy].
    rewrite Forall_forall in Hall. apply Hall. exact Hin.
Qed.

Lemma latest_name_max (resultMap : list (string * string)) (latest : string) :
  latest_name resultMap = Some latest ->
  In latest (map fst resultMap) /\
  (forall k, In k (map fst resultMap) -> str_le k latest = true).
Proof.
  unfold latest_name. intros H.
  assert (Hs : StronglySorted str_rel (sort (map fst resultMap))).
  { apply Sorted_StronglySorted; [|apply sort_sorted].
    intros a b c; unfold str_rel; apply str_le_trans. }
  destruct (last_opt_strongly_sorted _ _ Hs H) as [Hin Hmax].
  split.
  - apply in_sort; exact Hin.
  - intros k Hk. apply Hmax, in_sort; exact Hk.
Qed.

Local Ltac first_match_case k :=
  split;
  [ intros t Ht; injection Ht as <-; exists k; split; [lia|]; split; [simpl; assumption|];
    split; [intros j Hj; destruct j as [|[|[|[|]]]]; simpl; first [assumption|lia]|reflexivity]
  |];
  split;
  [ intros i Hi Hm Hprev; destruct i as [|[|[|[|[|i]]]]]; simpl in Hm; try lia;
    first [ reflexivity | congruence
          | (specialize (Hprev k ltac:(lia)); simpl in Hprev; congruence) ]
  |];
  split; [split; [discriminate|intros H; specialize (H k ltac:(lia)); simpl in H; congruence]|];
  intros ->; vm_compute in *; first [discriminate | repeat split].

(** C3: on the lexicographically latest filename of the listing, the five
    shapes are tried in their fixed order and the first one that matches
    fixes the template; no match is an [UnrecognizedFilenamePatternError];
    ["20240101080000.024"] also matches the second and the fifth shape yet
    resolves to the 14-digit+3-digit template. *)
Theorem guess_filename_wildcard_first_match (resultMap : list (string * string))
    (latest : string) :
  latest_name resultMap = Some latest ->
  (In latest (map fst resultMap) /\
   (forall k, In k (map fst resultMap) -> str_le k latest = true))
  /\ (forall t, guess_filename_wildcard resultMap = inr t ->
        exists i, (i < 5)%nat /\ shape_matches i latest = true /\
                  (forall j, (j < i)%nat -> shape_matches j latest = false) /\
                  t = shape_template i latest)
  /\ (forall i, (i < 5)%nat -> shape_matches i latest = true ->
        (forall j, (j < i)%nat -> shape_matches j latest = false) ->
        guess_filename_wildcard resultMap = inr (shape_template i latest))
  /\ (guess_filename_wildcard resultMap = inl UnrecognizedFilenamePatternError <->
      (forall i, (i < 5)%nat -> shape_matches i latest = false))
  /\ (latest = "20240101080000.024" ->
      shape_matches 1 latest = true /\ shape_matches 4 latest = true /\
      guess_filename_wildcard resultMap = inr "{inittime:%Y%m%d%H%M%S}.{fh:03d}").
Proof.
  intros Hl. split; [apply latest_name_max; exact Hl|].
  unfold guess_filename_wildcard. rewrite Hl.
  destruct (re_match1 latest) eqn:E1; [first_match_case 0|].
  destruct (re_match2 latest) eqn:E2; [first_match_case 1|].
  destruct (re_match3 latest) eqn:E3; [first_match_case 2|].
  destruct (re_match4 latest) eqn:E4; [first_match_case 3|].
  destruct (re_match5 latest) eqn:E5; [first_match_case 4|].
  split; [intros t Ht; discriminate|].
  split; [intros i Hi Hm; destruct i as [|[|[|[|[|i]]]]]; simpl in Hm; try lia; congruence|].
  split; [split; [intros _ i Hi; destruct i as [|[|[|[|[|i]]]]]; simpl; first [assumption|lia]
                 |reflexivity]|].
  intros ->. vm_compute in E1. discriminate.
Qed.

Lemma guess_filename_wildcard_first_match_witness :
  latest_name [("20240101080000.024", "-")] = Some "20240101080000.024" /\
  guess_filename_wildcard [("20240101080000.024", "-")] = inr "{inittime:%Y%m%d%H%M%S}.{fh:03d}".
Proof.
  split; [reflexivity|].
  pose proof (guess_filename_wildcard_first_match [("20240101080000.024", "-")]
                "20240101080000.024" eq_refl) as H.
  destruct H as (_ & _ & _ & _ & H).
  destruct (H eq_refl) as (_ & _ & H'). exact H'.
Defined.

End Wildcard.

(** ** Concrete token parsing used to evaluate the decoders on examples *)

Module PyTok.

(** Python's [int()] on a nonempty string of ASCII decimal digits (the only
    tokens the examples below feed to it). *)
Fixpoint dec_digits (s : string) (acc : Z) : option Z :=
  match s with
  | EmptyString => Some acc
  | String c s' =>
    if Wildcard.is_digit c
    then dec_digits s' (acc * 10 + (Z.of_nat (nat_of_ascii c) - 48))%Z
    else None
  end.

Definition dec_int (s : string) : option Z :=
  match s with
  | EmptyString => None
  | _ => dec_digits s 0%Z
  end.

End PyTok.

(** ** Flat-matrix body: [Diamond2.read] (src/pymdfs/diamond/diamond2.py) *)

Module Diamond2.

Open Scope Z_scope.

(** Python's [lst[:k]] / [lst[k:]] for [k >= 0]. *)
Definition take {A : Type} (k : nat) (l : list A) : list A := firstn k l.
Definition drop {A : Type} (k : nat) (l : list A) : list A := skipn k l.

(** [np.ndarray.reshape((a, b))] of an array of [n] elements: the shape
    obtained, or [None] for numpy's [ValueError] ([-1] is the one inferred
    dimension; other negative sizes are refused). *)
Definition reshape2 (n a b : Z) : option (Z * Z) :=
  if (a <? -1) || (b <? -1) then None
  else if (a =? -1) && (b =? -1) then None
  else if a =? -1 then
    if (b =? 0) || negb (Z.rem n b =? 0) then None else Some (n / b, b)
  else if b =? -1 then
    if (a =? 0) || negb (Z.rem n a =? 0) then None else Some (a, n / a)
  else if a * b =? n then Some (a, b) else None.

(** The rows of a C-ordered [(rows, k)] array. *)
Fixpoint chunks {A : Type} (k : nat) (rows : nat) (l : list A) : list (list A) :=
  match rows with
  | O => []
  | S r => firstn k l :: chunks k r (skipn k l)
  end.


(** The ten fields of [Diamond2.dtype]. *)
Definition n_dtype_fields : Z := 10.

Section Read.

(** The tokens of [str.split()], Python's [int()] on a token and numpy's
    float conversion of a token. *)
Variable Token : Type.
Variable F : Type.
Variable py_int : Token -> option Z.
Variable py_float : Token -> option F.

Record Diamond2Head : Type := {
  diamond : Token;
  dtype : Z;
  description : Token;
  year : Z;
  month : Z;
  day : Z;
  hour : Z;
  level : Z;
  nrec : Z
}.

Inductive ReadError : Type :=
| HeadTypeError              (* Diamond2Head( *data[:9]) with fewer than 9 tokens *)
| HeadValueError             (* int() of a header field *)
| ZeroDivisionError          (* len(data[headsize:]) / 0 *)
| NonIntegralColumnCountError  (* "Data can't be splitted into integer columns." *)
| FloatValueError            (* np.asfarray of a body token *)
| ReshapeValueError          (* .reshape((nrec, int(ncols))) *)
| ToFrameError.              (* unstructured_to_structured in to_frame *)

Definition headsize : nat := 9.

(** [Diamond2Head( *data[:headsize])] and its [_cast_fields_types]. *)
Definition parse_head (data : list Token) : ReadError + Diamond2Head :=
  match take headsize data with
  | [t0; t1; t2; t3; t4; t5; t6; t7; t8] =>
    match py_int t1, py_int t3, py_int t4, py_int t5, py_int t6, py_int t7, py_int t8 with
    | Some d, Some y, Some mo, Some dd, Some hh, Some lv, Some nr =>
      inr {| diamond := t0; dtype := d; description := t2; year := y; month := mo;
             day := dd; hour := hh; level := lv; nrec := nr |}
    | _, _, _, _, _, _, _ => inl HeadValueError
    end
  | _ => inl HeadTypeError
  end.

Fixpoint all_floats (l : list Token) : option (list F) :=
  match l with
  | [] => Some []
  | t :: l' =>
    match py_float t, all_floats l' with
    | Some x, Some xs => Some (x :: xs)
    | _, _ => None
    end
  end.

(** [to_frame]: [unstructured_to_structured] needs a last axis of exactly
    the dtype's ten fields (an empty last axis is refused as well). *)
Definition to_frame_ok (ncols : Z) : bool := ncols =? n_dtype_fields.

(** [Diamond2.read] on the token list [data = ....split()]: the header and
    [self.data]. [ncols = T / nrec] is a float division; [is_integer()] is
    divisibility for token counts below 2^53. *)
Definition read (data : list Token) : ReadError + (Diamond2Head * list (list F)) :=
  match parse_head data with
  | inl e => inl e
  | inr head =>
    let body := drop headsize data in
    let T := Z.of_nat (length body) in
    let R := nrec head in
    if R =? 0 then inl ZeroDivisionError
    else if negb (Z.rem T R =? 0) then inl NonIntegralColumnCountError
    else
      let ncols := Z.quot T R in
      match all_floats body with
      | None => inl FloatValueError
      | Some vals =>
        match reshape2 T R ncols with
        | None => inl ReshapeValueError
        | Some (rows, cols) =>
          if to_frame_ok cols
          then inr (head, chunks (Z.to_nat cols) (Z.to_nat rows) vals)
          else inl ToFrameError
        end
      end
  end.

End Read.

Section Theorems.

Variable Token : Type.
Variable F : Type.
Variable py_int : Token -> option Z.
Variable py_float : Token -> option F.

Lemma all_floats_length (l : list Token) (vals : list F) :
  all_floats Token F py_float l = Some vals -> length vals = length l.
Proof.
  revert vals. induction l as [|t l IH]; simpl; intros vals H.
  - injection H as <-. reflexivity.
  - destruct (py_float t), (all_floats Token F py_float l) eqn:E; try discriminate.
    injection H as <-. simpl. f_equal. apply IH. reflexivity.
Qed.

Lemma chunks_shape {A : Type} (k r : nat) (l : list A) :
  length l = (r * k)%nat ->
  length (chunks k r l) = r /\ Forall (fun row => length row = k) (chunks k r l)
  /\ concat (chunks k r l) = l.
Proof.
  revert l. induction r as [|r IH]; intros l Hl; simpl in *.
  - destruct l; [|discriminate]. repeat constructor.
  - destruct (IH (skipn k l)) as (H1 & H2 & H3); [rewrite length_skipn; lia|].
    split; [f_equal; exact H1|]. split.
    + constructor; [rewrite length_firstn; lia|exact H2].
    + rewrite H3. apply firstn_skipn.
Qed.

Lemma reshape2_pos (T R : Z) :
  0 < R -> 0 <= T -> Z.rem T R = 0 -> reshape2 T R (Z.quot T R) = Some (R, Z.quot T R).
Proof.
  intros HR HT Hrem. unfold reshape2.
  assert (Hq : 0 <= Z.quot T R) by (apply Z.quot_pos; lia).
  assert (Hm : R * Z.quot T R = T).
  { pose proof (Z.quot_rem' T R) as E. lia. }
  destruct (R <? -1) eqn:E1; [lia|]. destruct (Z.quot T R <? -1) eqn:E2; [lia|].
  destruct (R =? -1) eqn:E3; [lia|]. simpl.
  destruct (Z.quot T R =? -1) eqn:E4; [lia|].
  rewrite Hm, Z.eqb_refl. reflexivity.
Qed.

Lemma reshape2_neg (T R : Z) : R < 0 -> 0 <= T -> reshape2 T R (Z.quot T R) = None.
Proof.
  intros HR HT. unfold reshape2.
  destruct (Z.ltb_spec R (-1)) as [H1|H1]; [reflexivity|].
  assert (R = -1) as -> by lia.
  assert (Hq : Z.quot T (-1) = - T).
  { change (-1) with (- (1)). rewrite Z.quot_opp_r by lia. rewrite Z.quot_1_r. reflexivity. }
  rewrite Hq.
  destruct (Z.ltb_spec (- T) (-1)) as [H2|H2]; [reflexivity|]. simpl.
  destruct (Z.eqb_spec (- T) (-1)) as [H3|H3]; [reflexivity|].
  assert (T = 0) as -> by lia. reflexivity.
Qed.

(** C4 (amended): once the header is read and every body token is numeric,
    [read] fails whenever [nrec = 0] or [T mod nrec <> 0]; it succeeds exactly
    when [nrec > 0] and [T = 10 * nrec] (the ten fields of [Diamond2.dtype]
    that [to_frame] requires), and then [self.data] is the [nrec x 10]
    matrix of the body tokens in stream order. *)
Theorem read_flat_matrix (data : list Token) (head : Diamond2Head Token) (vals : list F) :
  parse_head Token py_int data = inr head ->
  all_floats Token F py_float (drop headsize data) = Some vals ->
  ((nrec _ head = 0 \/ Z.rem (Z.of_nat (length (drop headsize data))) (nrec _ head) <> 0) ->
     exists e, read Token F py_int py_float data = inl e)
  /\ (forall h m, read Token F py_int py_float data = inr (h, m) <->
        h = head /\ 0 < nrec _ head /\
        Z.of_nat (length (drop headsize data)) = 10 * nrec _ head /\
        m = chunks 10 (Z.to_nat (nrec _ head)) vals)
  /\ (0 < nrec _ head -> Z.of_nat (length (drop headsize data)) = 10 * nrec _ head ->
      exists m, read Token F py_int py_float data = inr (head, m) /\
        length m = Z.to_nat (nrec _ head) /\
        Forall (fun row => length row = 10%nat) m /\ concat m = vals).
Proof.
  intros Hp Hf.
  pose proof (all_floats_length _ _ Hf) as Hlen.
  set (T := Z.of_nat (length (drop headsize data))).
  set (R := nrec _ head).
  assert (HT : 0 <= T) by (unfold T; lia).
  assert (Hread : read Token F py_int py_float data =
    if R =? 0 then inl ZeroDivisionError
    else if negb (Z.rem T R =? 0) then inl NonIntegralColumnCountError
    else match reshape2 T R (Z.quot T R) with
         | None => inl ReshapeValueError
         | Some (rows, cols) =>
           if to_frame_ok cols
           then inr (head, chunks (Z.to_nat cols) (Z.to_nat rows) vals)
           else inl ToFrameError
         end).
  { unfold read. rewrite Hp. fold T R.
    destruct (R =? 0); [reflexivity|]. destruct (negb _); [reflexivity|].
    rewrite Hf. reflexivity. }
  split; [|split].
  - intros [H0|Hr]; rewrite Hread.
    + rewrite H0. eexists; reflexivity.
    + destruct (Z.eqb_spec R 0); [eexists; reflexivity|].
      destruct (Z.eqb_spec (Z.rem T R) 0); [contradiction|]. eexists; reflexivity.
  - intros h m. rewrite Hread.
    destruct (Z.eqb_spec R 0) as [H0|H0].
    { split; [discriminate|lia]. }
    destruct (Z.eqb_spec (Z.rem T R) 0) as [Hr|Hr]; cbn [negb].
    2:{ split; [discriminate|]. intros (_ & _ & HT10 & _). exfalso. apply Hr.
        rewrite HT10. apply Z.rem_mul. exact H0. }
    destruct (Z.ltb_spec 0 R) as [Hpos|Hneg].
    + rewrite reshape2_pos by assumption. unfold to_frame_ok, n_dtype_fields.
      assert (Hm : R * Z.quot T R = T) by (pose proof (Z.quot_rem' T R); lia).
      destruct (Z.eqb_spec (Z.quot T R) 10) as [H10|H10].
      * rewrite H10. split.
        -- intros Heq. injection Heq as <- <-. rewrite H10 in Hm.
           repeat split; lia.
        -- intros (-> & _ & _ & ->). reflexivity.
      * split; [discriminate|]. intros (_ & _ & HT10 & _). exfalso. apply H10.
        rewrite HT10. apply Z.quot_mul. exact H0.
    + rewrite reshape2_neg by lia. split; [discriminate|lia].
  - intros Hpos HT10.
    assert (Hok : read Token F py_int py_float data = inr (head, chunks 10 (Z.to_nat R) vals)).
    { rewrite Hread.
      destruct (Z.eqb_spec R 0); [lia|].
      assert (Hr : Z.rem T R = 0) by (rewrite HT10; apply Z.rem_mul; lia).
      rewrite Hr. simpl. rewrite reshape2_pos by assumption.
      unfold to_frame_ok, n_dtype_fields.
      assert (Hq : Z.quot T R = 10) by (rewrite HT10; apply Z.quot_mul; lia).
      rewrite Hq. reflexivity. }
    exists (chunks 10 (Z.to_nat R) vals). split; [exact Hok|].
    apply chunks_shape. rewrite Hlen. unfold T in HT10. lia.
Qed.

End Theorems.

(** A Diamond 2 file with [nrec = 1] and two body tokens. *)
Definition d2_two_tokens : list string :=
  ["diamond"; "2"; "desc"; "21"; "3"; "7"; "20"; "500"; "1"; "3005"; "1"]%string.

(** C4 fails as stated: [T = 2] is a multiple of [nrec = 1], yet [read]
    raises (in [to_frame], which needs ten columns). *)
Lemma read_flat_matrix_counterexample :
  (exists h, parse_head string PyTok.dec_int d2_two_tokens = inr h /\ nrec _ h = 1) /\
  length (drop headsize d2_two_tokens) = 2%nat /\ Z.rem 2 1 = 0 /\
  read string Z PyTok.dec_int PyTok.dec_int d2_two_tokens = inl ToFrameError.
Proof.
  split; [eexists; split; reflexivity|]. repeat split; reflexivity.
Qed.

(** The amended theorem at a ten-column file of two records. *)
Definition d2_two_records : list string :=
  ["diamond"; "2"; "desc"; "21"; "3"; "7"; "20"; "500"; "2";
   "3005"; "1"; "60"; "84"; "1"; "547"; "29"; "16"; "310"; "13";
   "3808"; "5"; "50"; "88"; "1"; "557"; "26"; "22"; "5"; "10"]%string.

Lemma read_flat_matrix_witness :
  exists head vals,
    parse_head string PyTok.dec_int d2_two_records = inr head /\
    all_floats string Z PyTok.dec_int (drop headsize d2_two_records) = Some vals /\
    exists m, read string Z PyTok.dec_int PyTok.dec_int d2_two_records = inr (head, m) /\
      length m = 2%nat.
Proof.
  eexists; eexists. split; [reflexivity|]. split; [reflexivity|].
  match goal with |- exists m, ?r = inr (?h, m) /\ _ =>
    destruct (proj2 (proj2 (read_flat_matrix string Z PyTok.dec_int PyTok.dec_int
                d2_two_records h _ eq_refl eq_refl))
                ltac:(vm_compute; reflexivity) ltac:(vm_compute; reflexivity))
      as (m & Hm & Hl & _ & _) end.
  exists m. split; [exact Hm|exact Hl].
Defined.

End Diamond2.

(** ** Run-length sparse decode: [LatLon.decompress] (src/pymdfs/latlon.py) *)

Module LatLon.

Open Scope Z_scope.

(** The header fields [decompress] reads: [nodata] is a float32 (a dyadic
    rational) and [amp] an int16. *)
Record LatLonHead : Type := {
  rows : Z;
  cols : Z;
  nodata : Q;
  amp : Z
}.

(** Python's [int()] on a float: truncation toward zero. *)
Definition py_int_of_Q (q : Q) : Z := Z.quot (Qnum q) (Zpos (Qden q)).

(** Round half to even of the non-negative rational [n / d], [d > 0]. *)
Definition round_half_even (n d : Z) : Z :=
  let q := n / d in
  match Z.compare (2 * (n mod d)) d with
  | Lt => q
  | Gt => q + 1
  | Eq => if Z.even q then q else q + 1
  end.

(** [floor(log2(a / d))] for [a, d > 0]: [log2 a - log2 d] or one less. *)
Definition flog2 (a d : Z) : Z :=
  let k := Z.log2 a - Z.log2 d in
  if (if 0 <=? k then d * 2 ^ k <=? a else d <=? a * 2 ^ (- k)) then k else k - 1.

(** The result of a float64 operation whose exact value is [q]: the binary64
    number nearest to [q], ties to even (53-bit significand, least exponent
    -1074). Overflow is left out: the values rounded here stay below 2^144. *)
Definition round64 (q : Q) : Q :=
  let r := Qred q in
  let a := Z.abs (Qnum r) in
  let d := Zpos (Qden r) in
  if a =? 0 then 0%Q
  else
    let e := Z.max (-1074) (flog2 a d - 52) in
    if 0 <=? e then inject_Z (Z.sgn (Qnum r) * round_half_even a (d * 2 ^ e) * 2 ^ e)
    else (Z.sgn (Qnum r) * round_half_even (a * 2 ^ (- e)) d) # Z.to_pos (2 ^ (- e)).

(** [int(head.nodata * head.amp + 0.5)], both operations in float64 (the
    product of a float32 and an int16 is always exact; the addition of 0.5
    rounds once [|nodata * amp| >= 2^52]). *)
Definition background (head : LatLonHead) : Z :=
  py_int_of_Q (round64 (round64 (nodata head * inject_Z (amp head)) + (1 # 2)))%Q.

(** Arithmetic of numpy [int16] scalars wraps around. *)
Definition wrap16 (z : Z) : Z := (z + 32768) mod 65536 - 32768.

Inductive DecompressError : Type :=
| NegativeDimensionError   (* np.ones((rows, cols)) with a negative size *)
| UnpackError              (* y, x, n = buf[:3] with fewer than 3 values *)
| RowIndexError            (* data[y, ...] with y >= rows *)
| BroadcastError           (* data[y, x:x + n] = buf[:n] with mismatched sizes *)
| OutOfFuel.               (* never reached: every iteration consumes 3 values *)

Definition Grid : Type := list (list Z).

(** [y, x, n = buf[:3]; buf = buf[3:]] *)
Definition take3 (buf : list Z) : option (Z * Z * Z * list Z) :=
  match buf with
  | y :: x :: n :: rest => Some (y, x, n, rest)
  | _ => None
  end.

(** Python's normalisation of a slice bound against a length. *)
Definition slice_bound (len b : Z) : Z :=
  if b <? 0 then Z.max 0 (b + len) else Z.min b len.

(** [row[x:stop] = vals] on one row (numpy broadcasts a single value). *)
Definition assign_row (row : list Z) (x stop : Z) (vals : list Z) : option (list Z) :=
  let len := Z.of_nat (length row) in
  let lo := slice_bound len x in
  let hi := Z.max lo (slice_bound len stop) in
  let sl := Z.to_nat (hi - lo) in
  let vals' :=
    if Nat.eqb (length vals) sl then Some vals
    else match vals with [v] => Some (repeat v sl) | _ => None end in
  match vals' with
  | Some vs => Some (firstn (Z.to_nat lo) row ++ vs ++ skipn (Z.to_nat hi) row)
  | None => None
  end.

(** [data[y, x:x + n] = buf[:n]] for [y, x >= 0]. *)
Definition assign_slice (data : Grid) (y x n : Z) (vals : list Z) : DecompressError + Grid :=
  match nth_error data (Z.to_nat y) with
  | None => inl RowIndexError
  | Some row =>
    match assign_row row x (wrap16 (x + n)) vals with
    | None => inl BroadcastError
    | Some row' =>
      inr (firstn (Z.to_nat y) data ++ row' :: skipn (S (Z.to_nat y)) data)
    end
  end.

(** The [while y >= 0 and x >= 0 and n > 0:] loop. *)
Fixpoint decompress_loop (fuel : nat) (data : Grid) (y x n : Z) (buf : list Z)
    : DecompressError + Grid :=
  match fuel with
  | O => inl OutOfFuel
  | S f =>
    if (0 <=? y) && (0 <=? x) && (0 <? n) then
      match assign_slice data y x n (firstn (Z.to_nat n) buf) with
      | inl e => inl e
      | inr data' =>
        match take3 (skipn (Z.to_nat n) buf) with
        | None => inl UnpackError
        | Some (y', x', n', buf') => decompress_loop f data' y' x' n' buf'
        end
      end
    else inr data
  end.

(** [LatLon.decompress(buf)], [buf] being the body as [int16] values. *)
Definition decompress (head : LatLonHead) (buf : list Z) : DecompressError + Grid :=
  if (rows head <? 0) || (cols head <? 0) then inl NegativeDimensionError
  else
    let data := repeat (repeat (background head) (Z.to_nat (cols head))) (Z.to_nat (rows head)) in
    match take3 buf with
    | None => inl UnpackError
    | Some (y, x, n, buf') => decompress_loop (S (length buf)) data y x n buf'
    end.




Lemma length_overwrite {A : Type} (l vals : list A) (k : nat) :
  (k + length vals <= length l)%nat ->
  length (firstn k l ++ vals ++ skipn (k + length vals) l) = length l.
Proof.
  intros Hle. rewrite !length_app, length_skipn, firstn_length_le; lia.
Qed.



Lemma assign_row_fits (row vals : list Z) (x n : Z) :
  0 <= x -> 0 < n -> x + n < 32768 -> x + n <= Z.of_nat (length row) ->
  length vals = Z.to_nat n ->
  assign_row row x (wrap16 (x + n)) vals =
  Some (firstn (Z.to_nat x) row ++ vals ++ skipn (Z.to_nat x + length vals) row).
Proof.
  intros Hx Hn Hs Hl Hv. unfold assign_row, wrap16, slice_bound.
  rewrite Z.mod_small by lia.
  replace (x + n + 32768 - 32768) with (x + n) by lia.
  destruct (Z.ltb_spec x 0); [lia|]. destruct (Z.ltb_spec (x + n) 0); [lia|].
  rewrite (Z.min_l x) by lia. rewrite (Z.min_l (x + n)) by lia.
  rewrite Z.max_r by lia.
  replace (Z.to_nat (x + n - x)) with (length vals) by lia.
  rewrite Nat.eqb_refl. f_equal. f_equal. f_equal. f_equal. lia.
Qed.





End LatLon.

(** ** Forecast-hour and time resolution of [MdfsClient._sel] (src/pymdfs/client.py) *)

Module SelTimes.

Open Scope Z_scope.

(** Datetimes are whole seconds on a common (naive) time line; a timedelta
    of [h] hours is [3600 * h] seconds. [int(td.total_seconds() / 3600.)]
    truncates toward zero; the float quotient of an integer number of
    seconds below 2^40 by 3600 truncates as the exact one does. *)
Definition datetime : Type := Z.

(** The local variables of [_sel] after lines 115-124. *)
Record Resolved : Type := {
  r_inittime : datetime;
  r_fh : Z;
  r_leadtime : option datetime
}.

Definition hours_between (inittime leadtime : datetime) : Z :=
  Z.quot (leadtime - inittime) 3600.

(** [None] is the [AssertionError] of
    [assert inittime is not None or leadtime is not None]. *)
Definition _sel_times (inittime : option datetime) (fh : option Z) (leadtime : option datetime)
    : option Resolved :=
  match inittime, leadtime with
  | None, None => None
  | _, _ =>
    let fh :=
      match fh with
      | Some f => f
      | None =>
        match leadtime, inittime with
        | Some lt, Some it => hours_between it lt
        | _, _ => 0
        end
      end in
    match inittime with
    | Some it => Some {| r_inittime := it; r_fh := fh; r_leadtime := leadtime |}
    | None =>
      match leadtime with
      | Some lt => Some {| r_inittime := lt - 3600 * fh; r_fh := fh; r_leadtime := leadtime |}
      | None => None
      end
    end
  end.

(** C6 (corrected). Under the precondition that inittime or leadtime is
    given, [_sel] resolves an absent [fh] to the difference
    [leadtime - inittime] in whole hours, truncated toward zero, when both
    times are given, and to 0 otherwise (so also when only one of them is
    given); an absent inittime becomes [leadtime - fh] hours, and leadtime is
    left as given: an absent leadtime is never resolved. *)
Theorem _sel_times_resolution (inittime : option datetime) (fh : option Z) (leadtime : option datetime)
    (Hpre : inittime <> None \/ leadtime <> None) :
  exists r, _sel_times inittime fh leadtime = Some r /\
    r_fh r = match fh with
             | Some f => f
             | None => match inittime, leadtime with
                       | Some it, Some lt => hours_between it lt
                       | _, _ => 0
                       end
             end /\
    (forall it lt, fh = None -> inittime = Some it -> leadtime = Some lt -> it <= lt ->
       3600 * r_fh r <= lt - it < 3600 * (r_fh r + 1)) /\
    r_inittime r = match inittime, leadtime with
                   | Some it, _ => it
                   | None, Some lt => lt - 3600 * r_fh r
                   | None, None => 0
                   end /\
    r_leadtime r = leadtime.
Proof.
  destruct inittime as [it|], leadtime as [lt|]; [| | |destruct Hpre; congruence];
    cbn [_sel_times]; eexists; (split; [reflexivity|]); cbn [r_fh r_inittime r_leadtime];
    (split; [destruct fh; reflexivity|]);
    (split; [|split; reflexivity]);
    intros i l Hfh Hi Hl Hle; try discriminate; subst fh;
    injection Hi as <-; injection Hl as <-.
  unfold hours_between.
  pose proof (Z.quot_rem' (lt - it) 3600) as Hq.
  pose proof (Z.rem_bound_pos (lt - it) 3600 ltac:(lia) ltac:(lia)) as Hb.
  set (q := Z.quot (lt - it) 3600) in *. set (r := Z.rem (lt - it) 3600) in *. lia.
Qed.

(** C6, counterexample: with inittime given and fh and leadtime absent,
    fh becomes 0 and leadtime stays absent (it is not resolved to
    inittime + 0 hours). *)
Lemma _sel_times_resolution_counterexample :
  _sel_times (Some 0) None None = Some {| r_inittime := 0; r_fh := 0; r_leadtime := None |} /\
  forall r, _sel_times (Some 0) None None = Some r -> r_leadtime r <> Some (0 + 3600 * 0).
Proof.
  split; [reflexivity|]. intros r H. injection H as <-. discriminate.
Qed.

Lemma _sel_times_resolution_witness :
  (Some 0 <> None \/ Some 9000 <> None) /\
  exists r, _sel_times (Some 0) None (Some 9000) = Some r /\ r_fh r = 2.
Proof.
  assert (Hpre : Some 0 <> None \/ Some 9000 <> None) by (left; discriminate).
  split; [exact Hpre|].
  destruct (_sel_times_resolution (Some 0) None (Some 9000) Hpre) as [r [Hr [Hfh _]]].
  exists r. split; [exact Hr|]. rewrite Hfh. reflexivity.
Defined.

End SelTimes.

(** ** Format dispatch: [MdfsClient.guess_interface_class] (src/pymdfs/client.py) *)

Module Dispatch.

Open Scope Z_scope.

(** Bytes are integers in [0, 256); decoded text is a list of code points. *)

(** Python's strict UTF-8 decoder ([bytes.decode()]): no overlong forms, no
    surrogates, nothing above U+10FFFF. *)
Definition cont (b : Z) : bool := (128 <=? b) && (b <=? 191).

Fixpoint utf8_decode (l : list Z) : option (list Z) :=
  match l with
  | [] => Some []
  | b0 :: r =>
    if b0 <? 128 then option_map (cons b0) (utf8_decode r)
    else match r with
    | [] => None
    | b1 :: r1 =>
      if (194 <=? b0) && (b0 <=? 223) then
        if cont b1 then option_map (cons ((b0 - 192) * 64 + (b1 - 128))) (utf8_decode r1)
        else None
      else match r1 with
      | [] => None
      | b2 :: r2 =>
        if (224 <=? b0) && (b0 <=? 239) then
          let lo := if b0 =? 224 then 160 else 128 in
          let hi := if b0 =? 237 then 159 else 191 in
          if (lo <=? b1) && (b1 <=? hi) && cont b2 then
            option_map (cons ((b0 - 224) * 4096 + (b1 - 128) * 64 + (b2 - 128))) (utf8_decode r2)
          else None
        else match r2 with
        | [] => None
        | b3 :: r3 =>
          if (240 <=? b0) && (b0 <=? 244) then
            let lo := if b0 =? 240 then 144 else 128 in
            let hi := if b0 =? 244 then 143 else 191 in
            if (lo <=? b1) && (b1 <=? hi) && cont b2 && cont b3 then
              option_map (cons ((b0 - 240) * 262144 + (b1 - 128) * 4096 + (b2 - 128) * 64 + (b3 - 128)))
                (utf8_decode r3)
            else None
          else None
        end
      end
    end
  end.

(** [str.isspace], the separators of [str.split()]. *)
Definition is_space (c : Z) : bool :=
  ((9 <=? c) && (c <=? 13)) || ((28 <=? c) && (c <=? 32)) || (c =? 133) || (c =? 160)
  || (c =? 5760) || ((8192 <=? c) && (c <=? 8202)) || (c =? 8232) || (c =? 8233)
  || (c =? 8239) || (c =? 8287) || (c =? 12288).

Fixpoint split_go (l cur : list Z) : list (list Z) :=
  match l with
  | [] => match cur with [] => [] | _ => [rev cur] end
  | c :: r =>
    if is_space c then
      match cur with [] => split_go r [] | _ => rev cur :: split_go r [] end
    else split_go r (c :: cur)
  end.

(** [str.split()] *)
Definition split (l : list Z) : list (list Z) := split_go l [].

(** [str.lower()] on ASCII letters. No other code point lowers to a string
    made of the letters of "diamond", so [discriminator.lower() == 'diamond']
    is decided exactly by this. *)
Definition lower_cp (c : Z) : Z := if (65 <=? c) && (c <=? 90) then c + 32 else c.

Definition cps (s : string) : list Z :=
  map (fun a => Z.of_nat (nat_of_ascii a)) (list_ascii_of_string s).

(** [str.upper()] on an ASCII file name, and [str.endswith]. *)
Definition upper_ascii (a : ascii) : ascii :=
  let n := nat_of_ascii a in
  if (97 <=? n)%nat && (n <=? 122)%nat then ascii_of_nat (n - 32) else a.

Definition endswith (s suffix : string) : bool :=
  let l := map upper_ascii (list_ascii_of_string s) in
  let k := list_ascii_of_string suffix in
  if (length k <=? length l)%nat
  then if list_eq_dec ascii_dec (skipn (length l - length k) l) k then true else false
  else false.

(** The modules [pymdfs.diamond.diamond{dtype}] of the package, each
    defining [Diamond{dtype}]. *)
Definition diamond_modules : list string :=
  ["1"; "2"; "3"; "4"; "5"; "7"; "8"; "11"; "14"; "16"; "31"; "41"; "42"]%string.

Inductive Decoder : Type :=
| Awx | LatLon | MdfsGridData | MdfsStationData
| Diamond (subtype : list Z).

Inductive GuessError : Type :=
| StructError            (* unpack('4sh', contents[:6]) on fewer than 6 bytes *)
| UnicodeDecodeError     (* contents.decode() *)
| TokenUnpackError       (* discriminator, dtype = ...split()[:2] with < 2 tokens *)
| ModuleNotFoundError    (* importlib.import_module(f'.diamond{dtype}', ...) *)
| NotImplementedError.   (* raise NotImplementedError("Unsupported file format.") *)

Definition mdfs_magic : list Z := [109; 100; 102; 115].

(** The native [h] of [unpack('4sh', ...)]: little-endian, signed. *)
Definition int16_le (b0 b1 : Z) : Z :=
  let u := b0 + 256 * b1 in if u <? 32768 then u else u - 65536.

Definition guess_interface_class (filename : string) (contents : list Z) : GuessError + Decoder :=
  if endswith filename "AWX" then inr Awx
  else if endswith filename "LATLON" then inr LatLon
  else
    match firstn 6 contents with
    | [m0; m1; m2; m3; b4; b5] =>
      if list_eq_dec Z.eq_dec [m0; m1; m2; m3] mdfs_magic then
        let dtype := int16_le b4 b5 in
        if (dtype =? 4) || (dtype =? 11) then inr MdfsGridData else inr MdfsStationData
      else
        match utf8_decode contents with
        | None => inl UnicodeDecodeError
        | Some text =>
          match firstn 2 (split text) with
          | [discriminator; dtype] =>
            if list_eq_dec Z.eq_dec (map lower_cp discriminator) (cps "diamond") then
              if existsb (fun m => if list_eq_dec Z.eq_dec (cps m) dtype then true else false)
                   diamond_modules
              then inr (Diamond dtype) else inl ModuleNotFoundError
            else inl NotImplementedError
          | _ => inl TokenUnpackError
          end
        end
    | _ => inl StructError
    end.

(** A Diamond 4 file as the Diamond readers expect it, GBK-encoded:
    "diamond 4 " followed by the GBK bytes of a Chinese description. *)
Definition diamond4_gbk : list Z := [100; 105; 97; 109; 111; 110; 100; 32; 52; 32; 206; 194; 182; 200].

(** C7 (code bug). [guess_interface_class] resolves in the stated order (the
    AWX and LATLON file-name suffixes, case-insensitive; then the [mdfs]
    magic with type code 4 or 11 for the grid decoder and any other code for
    the station decoder), but the text branch decodes the WHOLE buffer as
    UTF-8 before taking its first two tokens: any buffer that is not valid
    UTF-8 fails with [UnicodeDecodeError] whatever its first tokens are. A
    GBK-encoded Diamond 4 file (the encoding every Diamond reader decodes)
    whose description is Chinese is rejected, while its leading
    "diamond 4 " alone dispatches to [Diamond4]; a buffer shorter than 6
    bytes fails in [unpack] instead. *)
Theorem guess_interface_class_whole_buffer_decode (filename : string) (contents : list Z) :
  (endswith filename "AWX" = true -> guess_interface_class filename contents = inr Awx) /\
  (endswith filename "AWX" = false -> endswith filename "LATLON" = true ->
     guess_interface_class filename contents = inr LatLon) /\
  (endswith filename "AWX" = false -> endswith filename "LATLON" = false ->
     (length contents < 6)%nat -> guess_interface_class filename contents = inl StructError) /\
  (endswith filename "AWX" = false -> endswith filename "LATLON" = false ->
     forall b4 b5 rest, contents = mdfs_magic ++ b4 :: b5 :: rest ->
     guess_interface_class filename contents =
       inr (if (int16_le b4 b5 =? 4) || (int16_le b4 b5 =? 11) then MdfsGridData else MdfsStationData)) /\
  (endswith filename "AWX" = false -> endswith filename "LATLON" = false ->
     (6 <= length contents)%nat -> firstn 4 contents <> mdfs_magic ->
     utf8_decode contents = None -> guess_interface_class filename contents = inl UnicodeDecodeError) /\
  guess_interface_class "24010108.000" diamond4_gbk = inl UnicodeDecodeError /\
  guess_interface_class "24010108.000" (firstn 10 diamond4_gbk) = inr (Diamond (cps "4")).
Proof.
  unfold guess_interface_class.
  split; [|split; [|split; [|split; [|split]]]].
  - intros ->. reflexivity.
  - intros -> ->. reflexivity.
  - intros -> -> Hlen.
    destruct contents as [|a [|b [|c [|d [|e [|f r]]]]]]; cbn in Hlen |- *; try reflexivity; lia.
  - intros -> -> b4 b5 rest ->. unfold mdfs_magic at 1. cbn [app firstn].
    destruct (list_eq_dec Z.eq_dec [109; 100; 102; 115] mdfs_magic) as [_|Hne]; [destruct (_ || _); reflexivity|].
    exfalso. apply Hne. reflexivity.
  - intros -> -> Hlen Hmagic Hdec.
    destruct contents as [|a [|b [|c [|d [|e [|f r]]]]]]; cbn in Hlen; try lia.
    cbn [firstn] in Hmagic |- *.
    destruct (list_eq_dec Z.eq_dec [a; b; c; d] mdfs_magic) as [Heq|_]; [contradiction|].
    rewrite Hdec. reflexivity.
  - split; reflexivity.
Qed.

End Dispatch.

(** ** Indexed multi-track body: [Diamond5.read] (src/pymdfs/diamond/diamond5.py) *)

Module Diamond5.

Open Scope Z_scope.

(** Python's [lst[start:stop]] (step 1, bounds normalised as Python does). *)
Definition py_slice {A : Type} (l : list A) (start stop : Z) : list A :=
  let n := Z.of_nat (length l) in
  let norm (b : Z) := if b <? 0 then Z.max 0 (b + n) else Z.min b n in
  firstn (Z.to_nat (norm stop - norm start)) (skipn (Z.to_nat (norm start)) l).

(** [lst[-1]] *)
Definition last_opt {A : Type} (l : list A) : option A :=
  match rev l with [] => None | x :: _ => Some x end.

(** [len(Diamond5.dtype)]: pressure, height, temperature, dewpoint, windr, winds. *)
Definition n_fields : Z := 6.

Section Read.

Variable Token : Type.
Variable F : Type.
Variable py_int : Token -> option Z.
Variable py_float : Token -> option F.

Record Diamond5Head : Type := {
  diamond : Token;
  dtype : Z;
  description : Token;
  year : Z;
  month : Z;
  day : Z;
  hour : Z;
  nrec : Z
}.

Inductive ReadError : Type :=
| HeadTypeError         (* Diamond5Head( *data[:headsize]) with fewer than 8 tokens *)
| HeadValueError        (* int() of a header field *)
| RecHeadIndexError     (* rec_head[-1] of an empty slice *)
| RecCountValueError    (* int(rec_head[-1]) *)
| ReshapeValueError     (* np.array(record).reshape(-1, 6) *)
| FloatValueError       (* unstructured_to_structured(record, dtype=self.dtype) *)
| IndexArrayError       (* unstructured_to_structured(np.array(indices), dtype_index) *)
| ToFrameError.         (* repeat / from_records in to_frame *)

Definition headsize : nat := 8.

Definition parse_head (data : list Token) : ReadError + Diamond5Head :=
  match firstn headsize data with
  | [t0; t1; t2; t3; t4; t5; t6; t7] =>
    match py_int t1, py_int t3, py_int t4, py_int t5, py_int t6, py_int t7 with
    | Some d, Some y, Some mo, Some dd, Some hh, Some nr =>
      inr {| diamond := t0; dtype := d; description := t2; year := y; month := mo;
             day := dd; hour := hh; nrec := nr |}
    | _, _, _, _, _, _ => inl HeadValueError
    end
  | _ => inl HeadTypeError
  end.

(** The [while irec < self.head.nrec] loop from token position [p]: the
    index rows [rec_head] and the records, each as its rows of six values. *)
Fixpoint read_loop (k : nat) (data : list Token) (p : Z)
    : ReadError + (list (list Token) * list (list (list F))) :=
  match k with
  | O => inr ([], [])
  | S k' =>
    let rec_head := py_slice data p (p + 5) in
    match last_opt rec_head with
    | None => inl RecHeadIndexError
    | Some t =>
      match py_int t with
      | None => inl RecCountValueError
      | Some nrec_irec =>
        let p := p + 5 in
        let record := py_slice data p (p + nrec_irec) in
        let p := p + nrec_irec in
        match Diamond2.reshape2 (Z.of_nat (length record)) (-1) n_fields with
        | None => inl ReshapeValueError
        | Some (rows, _) =>
          match Diamond2.all_floats Token F py_float record with
          | None => inl FloatValueError
          | Some vals =>
            match read_loop k' data p with
            | inl e => inl e
            | inr (ixs, recs) =>
              inr (rec_head :: ixs, Diamond2.chunks (Z.to_nat n_fields) (Z.to_nat rows) vals :: recs)
            end
          end
        end
      end
    end
  end.

(** [unstructured_to_structured(np.array(indices), dtype=self.dtype_index)]:
    a non-empty, non-ragged array of rows of five tokens, lon, lat and height
    floats and nrec an integer; the [nrec] column. *)
Definition index_nrecs (ixs : list (list Token)) : option (list Z) :=
  match ixs with
  | [] => None
  | _ =>
    fold_right (fun ix acc =>
      match ix, acc with
      | [_; lon; lat; height; n], Some ns =>
        match py_float lon, py_float lat, py_float height, py_int n with
        | Some _, Some _, Some _, Some v => Some (v :: ns)
        | _, _, _, _ => None
        end
      | _, _ => None
      end) (Some []) ixs
  end.

Definition sumZ (l : list Z) : Z := fold_right Z.add 0 l.

(** [Diamond5.read] on [data = ....split()], with [to_frame]: the index is
    repeated [nrec // 6] times per row (a negative repeat count is refused),
    and [DataFrame.from_records(np.hstack(self.data), index=multi_index)]
    needs as many data rows as index rows, except that a single data row is
    repeated along the whole index (pandas' [sanitize_array] repeats a
    length-1 array when [1 == len(arr) != len(index)]). *)
Definition read (data : list Token)
    : ReadError + (Diamond5Head * list (list Token) * list (list (list F))) :=
  match parse_head data with
  | inl e => inl e
  | inr head =>
    match read_loop (Z.to_nat (nrec head)) data (Z.of_nat headsize) with
    | inl e => inl e
    | inr (ixs, recs) =>
      match index_nrecs ixs with
      | None => inl IndexArrayError
      | Some ns =>
        if existsb (fun n => n <? 0) ns then inl ToFrameError
        else
          let n_index := sumZ (map (fun n => n / n_fields) ns) in
          let n_rows := Z.of_nat (length (concat recs)) in
          if (n_index =? n_rows) || (n_rows =? 1) then inr (head, ixs, recs)
          else inl ToFrameError
      end
    end
  end.

End Read.

Section Theorems.

Variable Token : Type.
Variable F : Type.
Variable py_int : Token -> option Z.
Variable py_float : Token -> option F.






















End Theorems.










End Diamond5.

(** ** Latitude slice swap of [sel] (MdfsGridData, LatLon, Diamond4) *)

Module LatSel.

(** A float64 value of the latitude index. *)
Inductive PyFloat : Type :=
| Fin (q : Q)
| PosInf
| NegInf
| NaN.

(** IEEE comparison; [None] when a NaN is involved (every comparison false). *)
Definition fcmp (a b : PyFloat) : option comparison :=
  match a, b with
  | NaN, _ | _, NaN => None
  | Fin p, Fin q => Some (Qcompare p q)
  | NegInf, NegInf | PosInf, PosInf => Some Eq
  | NegInf, _ | _, PosInf => Some Lt
  | PosInf, _ | _, NegInf => Some Gt
  end.

Definition flt (a b : PyFloat) : bool := match fcmp a b with Some Lt => true | _ => false end.
Definition fgt (a b : PyFloat) : bool := match fcmp a b with Some Gt => true | _ => false end.
Definition feq (a b : PyFloat) : bool := match fcmp a b with Some Eq => true | _ => false end.
Definition fle (a b : PyFloat) : bool := flt a b || feq a b.
Definition is_nan (a : PyFloat) : bool := match a with NaN => true | _ => false end.

(** pandas' [is_monotonic] scan (pandas/_libs/algos.pyx) from [prev]. *)
Fixpoint dec_from (prev : PyFloat) (l : list PyFloat) : bool :=
  match l with
  | [] => true
  | cur :: r =>
    if flt cur prev then dec_from cur r
    else if fgt cur prev then false
    else if feq cur prev then dec_from cur r
    else false
  end.

Fixpoint inc_from (prev : PyFloat) (l : list PyFloat) : bool :=
  match l with
  | [] => true
  | cur :: r =>
    if flt cur prev then false
    else if fgt cur prev then inc_from cur r
    else if feq cur prev then inc_from cur r
    else false
  end.

(** [Index.is_monotonic_decreasing] / [is_monotonic_increasing]: non-strict;
    a single non-NaN value and the empty index are both. *)
Definition is_monotonic_decreasing (idx : list PyFloat) : bool :=
  match idx with
  | [] => true
  | [x] => negb (is_nan x)
  | x :: r => dec_from x r
  end.

Definition is_monotonic_increasing (idx : list PyFloat) : bool :=
  match idx with
  | [] => true
  | [x] => negb (is_nan x)
  | x :: r => inc_from x r
  end.

Section Sel.

(** The Python objects a keyword argument may hold. *)
Variable Obj : Type.

Inductive KwArg : Type :=
| KSlice (start stop step : Obj)
| KOther (o : Obj).

(** [**kwargs]: a dict with distinct keys, in insertion order. *)
Definition Kwargs : Type := list (string * KwArg).

Fixpoint kw_get (k : string) (kwargs : Kwargs) : option KwArg :=
  match kwargs with
  | [] => None
  | (k', v) :: r => if String.eqb k' k then Some v else kw_get k r
  end.

(** [kwargs[k] = v] for a key already present: the value is replaced in place. *)
Definition kw_set (k : string) (v : KwArg) (kwargs : Kwargs) : Kwargs :=
  map (fun kv => if String.eqb (fst kv) k then (fst kv, v) else kv) kwargs.

(** The keyword arguments [sel] passes to [self._ds.sel( **kwargs)], for the
    latitude index [lat] of [self._ds]. *)
Definition sel (lat : list PyFloat) (kwargs : Kwargs) : Kwargs :=
  if is_monotonic_decreasing lat then
    match kw_get "lat" kwargs with
    | Some (KSlice start stop step) => kw_set "lat" (KSlice stop start step) kwargs
    | _ => kwargs
    end
  else kwargs.

End Sel.

(** The three [sel] methods are the same code. *)
Definition MdfsGridData_sel := sel.
Definition LatLon_sel := sel.
Definition Diamond4_sel := sel.

(** [Index.slice_indexer(start, stop)] on a monotonically increasing index
    (the branch pandas tries first): the positions of the labels in
    [[start, stop]]. *)
Definition label_slice_increasing (idx : list PyFloat) (start stop : PyFloat) : list nat :=
  map fst (filter (fun ix => fle start (snd ix) && fle (snd ix) stop) (combine (seq 0 (length idx)) idx)).

Lemma fcmp_sym (a b : PyFloat) : fcmp a b = option_map CompOpp (fcmp b a).
Proof.
  destruct a, b; cbn; try reflexivity. rewrite Qcompare_antisym. reflexivity.
Qed.

Lemma kw_get_set_same {Obj : Type} (k : string) (v w : KwArg Obj) (kwargs : Kwargs Obj) :
  kw_get Obj k kwargs = Some w -> kw_get Obj k (kw_set Obj k v kwargs) = Some v.
Proof.
  induction kwargs as [|[k' v'] r IH]; cbn; [discriminate|].
  destruct (String.eqb_spec k' k) as [->|Hne]; cbn.
  - rewrite String.eqb_refl. reflexivity.
  - destruct (String.eqb_spec k' k); [contradiction|]. exact IH.
Qed.

Lemma kw_get_set_other {Obj : Type} (k k0 : string) (v : KwArg Obj) (kwargs : Kwargs Obj) :
  k0 <> k -> kw_get Obj k0 (kw_set Obj k v kwargs) = kw_get Obj k0 kwargs.
Proof.
  intros Hk. induction kwargs as [|[k' v'] r IH]; cbn; [reflexivity|].
  destruct (String.eqb_spec k' k) as [->|Hne]; cbn.
  - destruct (String.eqb_spec k k0); [congruence|]. exact IH.
  - destruct (String.eqb_spec k' k0); [reflexivity|]. exact IH.
Qed.

(** C9 (code bug). [sel] swaps the bounds of a [lat] slice exactly when
    pandas reports the latitude index as monotonically decreasing, and
    passes every argument through otherwise (in particular when the first
    step of the axis increases). But [is_monotonic_decreasing] is
    non-strict: a one-point (or constant) latitude axis is increasing AND
    decreasing, so the slice is swapped there too, and the increasing-index
    label lookup of the swapped slice [40 .. 20] selects nothing where the
    caller's [20 .. 40] selects the single row. *)
Theorem sel_swap_nonstrict_decreasing (Obj : Type) (lat : list PyFloat) (kwargs : Kwargs Obj) :
  (is_monotonic_decreasing lat = true -> forall start stop step,
     kw_get Obj "lat" kwargs = Some (KSlice Obj start stop step) ->
     kw_get Obj "lat" (sel Obj lat kwargs) = Some (KSlice Obj stop start step) /\
     forall k, k <> "lat"%string -> kw_get Obj k (sel Obj lat kwargs) = kw_get Obj k kwargs) /\
  (is_monotonic_decreasing lat = false -> sel Obj lat kwargs = kwargs) /\
  (forall x y r, flt x y = true -> is_monotonic_decreasing (x :: y :: r) = false) /\
  (MdfsGridData_sel = sel /\ LatLon_sel = sel /\ Diamond4_sel = sel) /\
  let one := [Fin 30] in
  is_monotonic_increasing one = true /\ is_monotonic_decreasing one = true /\
  sel (option PyFloat) one [("lat"%string, KSlice _ (Some (Fin 20)) (Some (Fin 40)) None)] =
    [("lat"%string, KSlice _ (Some (Fin 40)) (Some (Fin 20)) None)] /\
  label_slice_increasing one (Fin 40) (Fin 20) = [] /\
  label_slice_increasing one (Fin 20) (Fin 40) = [0%nat].
Proof.
  split; [|split; [|split; [|split]]].
  - intros Hdec start stop step Hget. unfold sel. rewrite Hdec, Hget. split.
    + exact (kw_get_set_same _ _ _ _ Hget).
    + intros k Hk. exact (kw_get_set_other _ _ _ _ Hk).
  - intros Hdec. unfold sel. rewrite Hdec. reflexivity.
  - intros x y r Hxy. cbn [is_monotonic_decreasing dec_from].
    unfold flt, fgt in *. rewrite (fcmp_sym y x).
    destruct (fcmp x y) as [[]|]; try discriminate. reflexivity.
  - repeat split.
  - repeat split.
Qed.

End LatSel.

(** ** Missing-value mask of [to_xarray] (MdfsGridData, Diamond4) *)

Module Mask.

Import LatSel.

Section Mask.

(** numpy's conversion of the Python float [missing_value] to the array's
    dtype for [data == missing_value] (float32 rounding for a float32 grid). *)
Variable cast : PyFloat -> PyFloat.

(** [data.where(data == self.missing_value)] when [missing_value] is not
    None, on the values of the array; [where] puts NaN where the condition
    fails. *)
Definition set_mask (missing_value : option PyFloat) (data : list PyFloat) : list PyFloat :=
  match missing_value with
  | None => data
  | Some mv => map (fun x => if feq x (cast mv) then x else NaN) data
  end.

(** [MdfsGridData.to_xarray]: a scalar grid, or the u and v components of a
    vector grid ([self.data] a dict), each through [set_mask_and_attrs]. *)
Inductive GridValues : Type :=
| Scalar (vals : list PyFloat)
| Vector (u v : list PyFloat).

Definition MdfsGridData_to_xarray (missing_value : option PyFloat) (data : GridValues) : GridValues :=
  match data with
  | Scalar vals => Scalar (set_mask missing_value vals)
  | Vector u v => Vector (set_mask missing_value u) (set_mask missing_value v)
  end.

(** [Diamond4.to_xarray] *)
Definition Diamond4_to_xarray (missing_value : option PyFloat) (vals : list PyFloat) : list PyFloat :=
  match missing_value with
  | Some mv => map (fun x => if feq x (cast mv) then x else NaN) vals
  | None => vals
  end.

Lemma set_mask_nth (mv : PyFloat) (data : list PyFloat) (i : nat) :
  nth_error (set_mask (Some mv) data) i =
  option_map (fun x => if feq x (cast mv) then x else NaN) (nth_error data i).
Proof. unfold set_mask. apply nth_error_map. Qed.

(** C10. Whenever [missing_value] is not None, [to_xarray] of MdfsGridData
    (scalar grid, and each of u and v of a vector grid) and of Diamond4
    keeps exactly the points whose value compares equal to [missing_value]
    and puts NaN at every other point ([data.where(data == missing_value)]);
    when it is None the values pass through unchanged. So a valid value
    different from the missing value becomes NaN and a missing point is
    kept. *)
Theorem to_xarray_keeps_only_missing (missing_value : option PyFloat) (data u v : list PyFloat) :
  (missing_value = None ->
     MdfsGridData_to_xarray missing_value (Scalar data) = Scalar data /\
     MdfsGridData_to_xarray missing_value (Vector u v) = Vector u v /\
     Diamond4_to_xarray missing_value data = data) /\
  (forall mv, missing_value = Some mv ->
     MdfsGridData_to_xarray missing_value (Scalar data) = Scalar (set_mask missing_value data) /\
     MdfsGridData_to_xarray missing_value (Vector u v) =
       Vector (set_mask missing_value u) (set_mask missing_value v) /\
     Diamond4_to_xarray missing_value data = set_mask missing_value data /\
     length (set_mask missing_value data) = length data /\
     forall i x, nth_error data i = Some x ->
       nth_error (set_mask missing_value data) i =
         Some (if feq x (cast mv) then x else NaN)).
Proof.
  split.
  - intros ->. repeat split.
  - intros mv ->. split; [reflexivity|]. split; [reflexivity|]. split; [reflexivity|].
    split; [apply length_map|].
    intros i x Hx. rewrite set_mask_nth, Hx. reflexivity.
Qed.

End Mask.

End Mask.


(** ** Further properties of [LatLon.decompress] *)

Module LatLonProps.

Import LatLon.
Open Scope Z_scope.

Lemma slice_bound_range (len b : Z) : 0 <= len -> 0 <= slice_bound len b <= len.
Proof. intros Hl. unfold slice_bound. destruct (Z.ltb_spec b 0); lia. Qed.

Lemma assign_row_length (row vals row' : list Z) (x stop : Z) :
  assign_row row x stop vals = Some row' -> length row' = length row.
Proof.
  unfold assign_row. intros H.
  set (len := Z.of_nat (length row)) in *.
  pose proof (slice_bound_range len x ltac:(lia)) as Hlo.
  pose proof (slice_bound_range len stop ltac:(lia)) as Hhi.
  set (lo := slice_bound len x) in *. set (hi := Z.max lo (slice_bound len stop)) in *.
  assert (Hvs : forall vs, (if Nat.eqb (length vals) (Z.to_nat (hi - lo)) then Some vals
            else match vals with [v] => Some (repeat v (Z.to_nat (hi - lo))) | _ => None end)
            = Some vs -> length vs = Z.to_nat (hi - lo)).
  { intros vs. destruct (Nat.eqb_spec (length vals) (Z.to_nat (hi - lo))) as [E|E].
    - intros Hv. injection Hv as <-. exact E.
    - destruct vals as [|v [|w r]]; try discriminate.
      intros Hv. injection Hv as <-. apply repeat_length. }
  destruct (if Nat.eqb (length vals) (Z.to_nat (hi - lo)) then Some vals
            else match vals with [v] => Some (repeat v (Z.to_nat (hi - lo))) | _ => None end)
    as [vs|] eqn:Ev; [|discriminate].
  injection H as <-. specialize (Hvs vs eq_refl).
  rewrite !length_app, length_skipn, firstn_length_le by lia. lia.
Qed.

(** The grid keeps [r] rows of [c] values. *)
Definition grid_shape (r c : nat) (g : Grid) : Prop :=
  length g = r /\ Forall (fun row => length row = c) g.

Lemma assign_slice_shape (g g' : Grid) (y x n : Z) (vals : list Z) (r c : nat) :
  grid_shape r c g -> assign_slice g y x n vals = inr g' -> grid_shape r c g'.
Proof.
  intros [Hl Hf]. unfold assign_slice.
  destruct (nth_error g (Z.to_nat y)) as [row|] eqn:Hrow; [|discriminate].
  destruct (assign_row row x (wrap16 (x + n)) vals) as [row'|] eqn:Ha; [|discriminate].
  intros H.
  assert (Hg' : g' = firstn (Z.to_nat y) g ++ row' :: skipn (S (Z.to_nat y)) g) by congruence.
  subst g'. clear H.
  assert (Hy : (Z.to_nat y < length g)%nat) by (apply nth_error_Some; congruence).
  pose proof (assign_row_length _ _ _ _ _ Ha) as Hlen.
  assert (Hrc : length row = c)
    by (rewrite Forall_forall in Hf; apply Hf; eapply nth_error_In; eassumption).
  split.
  - rewrite length_app. cbn [length]. rewrite length_skipn, firstn_length_le by lia. lia.
  - rewrite <- (firstn_skipn (Z.to_nat y) g) in Hf. apply Forall_app in Hf as [Hf1 Hf2].
    apply Forall_app. split; [exact Hf1|].
    constructor; [congruence|]. replace (skipn (S (Z.to_nat y)) g) with (skipn 1 (skipn (Z.to_nat y) g))
      by (rewrite skipn_skipn; reflexivity).
    destruct (skipn (Z.to_nat y) g); [constructor|inversion Hf2; assumption].
Qed.

Lemma decompress_loop_shape (f : nat) (g g' : Grid) (y x n : Z) (buf : list Z) (r c : nat) :
  grid_shape r c g -> decompress_loop f g y x n buf = inr g' -> grid_shape r c g'.
Proof.
  revert g y x n buf. induction f as [|f IH]; intros g y x n buf Hg; [discriminate|].
  cbn [decompress_loop].
  destruct ((0 <=? y) && (0 <=? x) && (0 <? n)); [|intros H; injection H as <-; exact Hg].
  destruct (assign_slice g y x n (firstn (Z.to_nat n) buf)) as [e|g1] eqn:Ha; [discriminate|].
  destruct (take3 (skipn (Z.to_nat n) buf)) as [[[[y' x'] n'] buf']|]; [|discriminate].
  apply IH. eapply assign_slice_shape; eassumption.
Qed.

(** Python's [int()] of a float depends only on its value. *)
Lemma py_int_of_Q_compat (p q : Q) : (p == q)%Q -> py_int_of_Q p = py_int_of_Q q.
Proof.
  destruct p as [a b], q as [c d]. unfold Qeq, py_int_of_Q. cbn [Qnum Qden]. intros E.
  assert (Hb : 0 < Z.pos b) by reflexivity. assert (Hd : 0 < Z.pos d) by reflexivity.
  assert (Hdiv : forall a c, 0 <= a -> a * Z.pos d = c * Z.pos b -> a / Z.pos b = c / Z.pos d).
  { intros a' c' Ha' E'.
    rewrite <- (Z.div_mul_cancel_r a' (Z.pos b) (Z.pos d)) by lia.
    rewrite <- (Z.div_mul_cancel_r c' (Z.pos d) (Z.pos b)) by lia.
    rewrite E', (Z.mul_comm (Z.pos d)). reflexivity. }
  destruct (Z.leb_spec 0 a) as [Ha|Ha].
  - assert (0 <= c).
    { destruct (Z.ltb_spec c 0) as [Hc|Hc]; [|lia].
      assert (c * Z.pos b < 0) by (apply Z.mul_neg_pos; lia).
      assert (0 <= a * Z.pos d) by (apply Z.mul_nonneg_nonneg; lia). lia. }
    rewrite !Z.quot_div_nonneg by lia. apply Hdiv; lia.
  - assert (c < 0).
    { destruct (Z.ltb_spec c 0) as [Hc|Hc]; [lia|].
      assert (a * Z.pos d < 0) by (apply Z.mul_neg_pos; lia).
      assert (0 <= c * Z.pos b) by (apply Z.mul_nonneg_nonneg; lia). lia. }
    replace (Z.quot a (Z.pos b)) with (- Z.quot (- a) (Z.pos b)) by (rewrite Z.quot_opp_l; lia).
    replace (Z.quot c (Z.pos d)) with (- Z.quot (- c) (Z.pos d)) by (rewrite Z.quot_opp_l; lia).
    rewrite !Z.quot_div_nonneg by lia. f_equal. apply Hdiv; lia.
Qed.

Lemma background_grid_shape (h : LatLonHead) :
  grid_shape (Z.to_nat (rows h)) (Z.to_nat (cols h))
    (repeat (repeat (background h) (Z.to_nat (cols h))) (Z.to_nat (rows h))).
Proof.
  split; [apply repeat_length|].
  apply Forall_forall. intros r Hr. apply repeat_spec in Hr. subst r. apply repeat_length.
Qed.

(** Whatever the body, a grid that [decompress] returns has the header's
    shape: [rows] rows of [cols] values each (the slice assignments never
    grow or shrink a row, and never add a row). *)
Theorem decompress_shape (h : LatLonHead) (buf : list Z) (g : Grid) :
  decompress h buf = inr g ->
  length g = Z.to_nat (rows h) /\ Forall (fun row => length row = Z.to_nat (cols h)) g.
Proof.
  unfold decompress. destruct ((rows h <? 0) || (cols h <? 0)); [discriminate|].
  destruct (take3 buf) as [[[[y x] n] buf']|]; [|discriminate].
  intros H. exact (decompress_loop_shape _ _ _ _ _ _ _ _ _ (background_grid_shape h) H).
Qed.

Lemma decompress_shape_witness :
  decompress {| rows := 2; cols := 3; nodata := 0%Q; amp := 1 |} [1; 1; 2; 5; 7; -1; 0; 0]
    = inr [[0; 0; 0]; [0; 5; 7]] /\
  length [[0; 0; 0]; [0; 5; 7]] = 2%nat /\
  Forall (fun row => length row = 3%nat) [[0; 0; 0]; [0; 5; 7]].
Proof.
  assert (E : decompress {| rows := 2; cols := 3; nodata := 0%Q; amp := 1 |} [1; 1; 2; 5; 7; -1; 0; 0]
    = inr [[0; 0; 0]; [0; 5; 7]]) by reflexivity.
  split; [exact E|]. exact (decompress_shape _ _ _ E).
Defined.

Lemma round64_compat (p q : Q) : (p == q)%Q -> round64 p = round64 q.
Proof. intros E. unfold round64. rewrite (Qred_complete p q E). reflexivity. Qed.

Lemma round_half_even_exact (c d : Z) : 0 < d -> round_half_even (c * d) d = c.
Proof.
  intros Hd. unfold round_half_even. rewrite Z.mod_mul, Z.div_mul by lia.
  replace (2 * 0) with 0 by reflexivity.
  destruct (Z.compare_spec 0 d); [lia|reflexivity|lia].
Qed.

Lemma flog2_le (a d : Z) : flog2 a d <= Z.log2 a - Z.log2 d.
Proof.
  unfold flog2.
  destruct (if 0 <=? Z.log2 a - Z.log2 d then _ else _); lia.
Qed.

(** A float64 operation whose exact result [k / 2^j] ([j] = 0 or 1, the
    fraction in lowest terms) has [|k| < 2^53] does not round. *)
Lemma round64_exact (k j : Z) :
  0 <= j <= 1 -> Z.gcd k (2 ^ j) = 1 -> Z.abs k < 2 ^ 53 ->
  (round64 (k # Z.to_pos (2 ^ j)) == k # Z.to_pos (2 ^ j))%Q.
Proof.
  intros Hj Hg Hk.
  assert (Hpj : 0 < 2 ^ j) by (apply Z.pow_pos_nonneg; lia).
  assert (HD : Z.pos (Z.to_pos (2 ^ j)) = 2 ^ j) by (apply Z2Pos.id; lia).
  unfold round64. rewrite Qcanon.Qred_identity by (cbn [Qnum Qden]; rewrite HD; exact Hg).
  cbn [Qnum Qden]. rewrite HD.
  destruct (Z.eqb_spec (Z.abs k) 0) as [Ha|Ha].
  { assert (k = 0) by lia. subst k. unfold Qeq. cbn. reflexivity. }
  cbv zeta.
  assert (Hlog : Z.log2 (Z.abs k) < 53) by (apply Z.log2_lt_pow2; lia).
  pose proof (flog2_le (Z.abs k) (2 ^ j)) as Hf.
  rewrite Z.log2_pow2 in Hf by lia.
  set (e := Z.max (-1074) (flog2 (Z.abs k) (2 ^ j) - 52)).
  assert (He : -1074 <= e <= - j) by (unfold e; lia).
  assert (Hsa : Z.sgn k * Z.abs k = k) by (destruct k; reflexivity).
  destruct (Z.leb_spec 0 e) as [He0|He0].
  - assert (e = 0 /\ j = 0) as [-> ->] by lia.
    cbn [Z.pow Z.pow_pos Pos.iter Z.mul] in *.
    rewrite Z.mul_1_r. replace (Z.abs k) with (Z.abs k * 1) at 1 by lia.
    rewrite round_half_even_exact by lia. unfold Qeq, inject_Z. cbn [Qnum Qden]. lia.
  - replace (Z.abs k * 2 ^ (- e)) with ((Z.abs k * 2 ^ (- e - j)) * 2 ^ j)
      by (rewrite <- Z.mul_assoc, <- Z.pow_add_r by lia; f_equal; f_equal; lia).
    rewrite round_half_even_exact by lia.
    unfold Qeq. cbn [Qnum Qden].
    rewrite HD, Z2Pos.id by (apply Z.pow_pos_nonneg; lia).
    replace (2 ^ (- e)) with (2 ^ (- e - j) * 2 ^ j)
      by (rewrite <- Z.pow_add_r by lia; f_equal; lia).
    set (ak := Z.abs k) in *. set (sk := Z.sgn k) in *. rewrite <- Hsa. ring.
Qed.

(** In float64, [int(nodata * amp + 0.5)] rounds half up only for
    non-negative values: when [nodata * amp] is a whole number [m] with
    [-2^52 <= m < 2^52] (where [m + 0.5] is a float64), the grid is
    pre-filled with [m] if [m >= 0] but with [m + 1] if [m < 0] (e.g. nodata
    -9999 with amp 1 fills the grid with -9998). *)
Theorem background_integral (h : LatLonHead) (m : Z) :
  (nodata h * inject_Z (amp h) == inject_Z m)%Q -> - 2 ^ 52 <= m < 2 ^ 52 ->
  background h = if 0 <=? m then m else m + 1.
Proof.
  intros E Hm. unfold background.
  assert (Hin : (round64 (nodata h * inject_Z (amp h)) == inject_Z m)%Q).
  { rewrite (round64_compat _ _ E).
    change (inject_Z m) with (m # Z.to_pos (2 ^ 0)).
    apply round64_exact; [lia | apply Z.gcd_1_r | lia]. }
  assert (Hsum : (round64 (nodata h * inject_Z (amp h)) + (1 # 2) == (2 * m + 1) # Z.to_pos (2 ^ 1))%Q).
  { rewrite Hin. unfold Qeq, Qplus, inject_Z. cbn [Qnum Qden]. lia. }
  rewrite (round64_compat _ _ Hsum).
  rewrite (py_int_of_Q_compat _ _ (round64_exact (2 * m + 1) 1 ltac:(lia) ltac:(
    rewrite Z.gcd_comm; change (2 ^ 1) with 2;
    replace (2 * m + 1) with (1 + m * 2) by ring;
    rewrite Z.gcd_add_mult_diag_r; reflexivity) ltac:(lia))).
  unfold py_int_of_Q. cbn [Qnum Qden]. change (Z.pos (Z.to_pos (2 ^ 1))) with 2.
  destruct (Z.leb_spec 0 m).
  - rewrite Z.quot_div_nonneg by lia.
    replace (2 * m + 1) with (1 + m * 2) by ring. rewrite Z.div_add by lia. reflexivity.
  - replace (Z.quot (2 * m + 1) 2) with (- Z.quot (- (2 * m + 1)) 2) by (rewrite Z.quot_opp_l; lia).
    rewrite Z.quot_div_nonneg by lia.
    replace (- (2 * m + 1)) with (1 + (- m - 1) * 2) by ring. rewrite Z.div_add by lia.
    cbn. lia.
Qed.

Lemma background_integral_witness :
  (nodata {| rows := 1; cols := 1; nodata := (-9999)%Q; amp := 1 |} *
     inject_Z (amp {| rows := 1; cols := 1; nodata := (-9999)%Q; amp := 1 |}) == inject_Z (-9999))%Q /\
  - 2 ^ 52 <= -9999 < 2 ^ 52 /\
  background {| rows := 1; cols := 1; nodata := (-9999)%Q; amp := 1 |} = -9998.
Proof.
  assert (E : (nodata {| rows := 1; cols := 1; nodata := (-9999)%Q; amp := 1 |} *
     inject_Z (amp {| rows := 1; cols := 1; nodata := (-9999)%Q; amp := 1 |}) == inject_Z (-9999))%Q)
    by reflexivity.
  assert (B : - 2 ^ 52 <= -9999 < 2 ^ 52) by lia.
  split; [exact E|]. split; [exact B|]. exact (background_integral _ (-9999) E B).
Defined.



(** A stream must end with a complete stop triple: when the values of a run
    are followed by fewer than three values, [y, x, n = buf[:3]] raises
    instead of the decoded grid being returned. *)
Theorem decompress_loop_missing_terminator (f : nat) (g : Grid) (row : list Z)
    (y x n : Z) (vals tail : list Z) :
  0 <= y -> 0 <= x -> 0 < n -> x + n < 32768 ->
  nth_error g (Z.to_nat y) = Some row -> x + n <= Z.of_nat (length row) ->
  length vals = Z.to_nat n -> (length tail < 3)%nat ->
  decompress_loop (S f) g y x n (vals ++ tail) = inl UnpackError.
Proof.
  intros Hy Hx Hn Hs Hrow Hl Hv Ht. cbn [decompress_loop].
  destruct (Z.leb_spec 0 y); [|lia]. destruct (Z.leb_spec 0 x); [|lia].
  destruct (Z.ltb_spec 0 n); [|lia]. cbn [andb].
  rewrite <- Hv, firstn_app, Nat.sub_diag, firstn_all, firstn_O, app_nil_r.
  unfold assign_slice. rewrite Hrow, assign_row_fits by assumption.
  rewrite skipn_app, Nat.sub_diag, skipn_all. cbn [app skipn].
  destruct tail as [|a [|b [|c r]]]; [reflexivity|reflexivity|reflexivity|cbn in Ht; lia].
Qed.

Lemma decompress_loop_missing_terminator_witness :
  decompress {| rows := 1; cols := 2; nodata := 0%Q; amp := 1 |} [0; 0; 2; 5; 7; -1; -1]
    = inl UnpackError.
Proof.
  change (decompress_loop 8 [[0; 0]] 0 0 2 ([5; 7] ++ [-1; -1]) = inl UnpackError).
  apply (decompress_loop_missing_terminator 7 [[0; 0]] [0; 0]); cbn; try reflexivity; lia.
Defined.

End LatLonProps.


(** ** Further properties of [guess_filename_wildcard] *)

Module WildcardProps.

Import Wildcard.
Open Scope string_scope.

Lemma str_le_antisym (a b : string) : str_le a b = true -> str_le b a = true -> a = b.
Proof.
  rewrite !str_le_iff. intros [->|Hab] [E|Hba]; auto.
  exfalso. eapply (StrictOrder_Irreflexive a). eapply StrictOrder_Transitive; eassumption.
Qed.

Lemma last_opt_none {A : Type} (l : list A) : last_opt l = None <-> l = [].
Proof.
  split; [|intros ->; reflexivity].
  induction l as [|x l IH]; [reflexivity|]. destruct l as [|y l]; [discriminate|].
  intros H. specialize (IH H). discriminate.
Qed.

Lemma latest_name_none (resultMap : list (string * string)) :
  latest_name resultMap = None <-> map fst resultMap = [].
Proof.
  unfold latest_name. rewrite last_opt_none. split.
  - intros H. destruct (map fst resultMap) as [|k ks] eqn:E; [reflexivity|].
    exfalso. assert (Hk : In k (sort (k :: ks))) by (apply in_sort; left; reflexivity).
    rewrite H in Hk. destruct Hk.
  - intros ->. reflexivity.
Qed.

Lemma latest_name_same_keys (m1 m2 : list (string * string)) :
  (forall k, In k (map fst m1) <-> In k (map fst m2)) -> latest_name m1 = latest_name m2.
Proof.
  intros Hk.
  destruct (latest_name m1) as [l1|] eqn:E1, (latest_name m2) as [l2|] eqn:E2.
  - apply latest_name_max in E1 as [In1 Max1], E2 as [In2 Max2]. f_equal.
    apply str_le_antisym; [apply Max2, Hk, In1 | apply Max1, Hk, In2].
  - exfalso. apply latest_name_max in E1 as [In1 _]. apply latest_name_none in E2.
    apply Hk in In1. rewrite E2 in In1. destruct In1.
  - exfalso. apply latest_name_max in E2 as [In2 _]. apply latest_name_none in E1.
    apply Hk in In2. rewrite E1 in In2. destruct In2.
  - reflexivity.
Qed.

(** The guessed template depends only on the SET of names in the listing:
    neither the order of [resultMap] nor its values (the sizes of files and
    the ['D'] marks of sub-directories, which take part like files) change
    the outcome, an empty listing included. *)
Theorem guess_filename_wildcard_keys_only (m1 m2 : list (string * string)) :
  (forall k, In k (map fst m1) <-> In k (map fst m2)) ->
  guess_filename_wildcard m1 = guess_filename_wildcard m2.
Proof.
  intros Hk. unfold guess_filename_wildcard. rewrite (latest_name_same_keys m1 m2 Hk). reflexivity.
Qed.

Lemma guess_filename_wildcard_keys_only_witness :
  (forall k, In k (map fst [("20240101080000.024", "1024"); ("ECMWF", "D")]) <->
             In k (map fst [("ECMWF", "0"); ("20240101080000.024", "7")])) /\
  guess_filename_wildcard [("20240101080000.024", "1024"); ("ECMWF", "D")] =
  guess_filename_wildcard [("ECMWF", "0"); ("20240101080000.024", "7")].
Proof.
  assert (H : forall k, In k (map fst [("20240101080000.024", "1024"); ("ECMWF", "D")]) <->
             In k (map fst [("ECMWF", "0"); ("20240101080000.024", "7")]))
    by (intros k; cbn; tauto).
  split; [exact H|]. exact (guess_filename_wildcard_keys_only _ _ H).
Defined.

End WildcardProps.


(** ** Further properties of the missing-value mask *)

Module MaskProps.

Import LatSel Mask.

Lemma feq_nan_r (x : PyFloat) : feq x NaN = false.
Proof. destruct x; reflexivity. Qed.

(** A NaN [missing_value] blanks the whole field: [data == nan] is false
    everywhere, so [data.where(...)] is NaN at every point of a scalar grid,
    of both components of a vector grid, and of a Diamond 4 grid, whatever
    the data. *)
Theorem to_xarray_nan_missing_value (cast : PyFloat -> PyFloat) (mv : PyFloat)
    (data u v : list PyFloat) :
  cast mv = NaN ->
  MdfsGridData_to_xarray cast (Some mv) (Scalar data) = Scalar (repeat NaN (length data)) /\
  MdfsGridData_to_xarray cast (Some mv) (Vector u v) =
    Vector (repeat NaN (length u)) (repeat NaN (length v)) /\
  Diamond4_to_xarray cast (Some mv) data = repeat NaN (length data).
Proof.
  intros Hnan.
  assert (Hall : forall l, set_mask cast (Some mv) l = repeat NaN (length l)).
  { intros l. unfold set_mask. rewrite Hnan.
    induction l as [|x l IH]; [reflexivity|]. cbn [map length repeat].
    rewrite feq_nan_r, IH. reflexivity. }
  cbn [MdfsGridData_to_xarray]. rewrite !Hall. split; [reflexivity|]. split; [reflexivity|].
  reflexivity.
Qed.

Lemma to_xarray_nan_missing_value_witness :
  (fun x : PyFloat => x) NaN = NaN /\
  Diamond4_to_xarray (fun x => x) (Some NaN) [Fin 1; NaN; Fin 2] = [NaN; NaN; NaN].
Proof.
  split; [reflexivity|].
  exact (proj2 (proj2 (to_xarray_nan_missing_value (fun x => x) NaN [Fin 1; NaN; Fin 2] [] [] eq_refl))).
Defined.

End MaskProps.


(** ** The GDS client: request URLs, [get_data], [download], [file_size_verify] *)

Module Client.

Open Scope Z_scope.
Open Scope string_scope.

(** [if (v is not None) and len(v) > 0: new_url.append(name + v)] *)
Definition append_param (name : string) (v : option string) : list string :=
  match v with
  | Some s => if (0 <? String.length s)%nat then [(name ++ s)%string] else []
  | None => []
  end.

(** [MdfsClient.get_concate_url]; [basicUrl] is [self.__basicUrl]. *)
Definition get_concate_url (basicUrl requestType : string)
    (directory fileName filter url : option string) : string :=
  String.concat ""
    ([basicUrl; ("?requestType=" ++ requestType)%string]
       ++ append_param "&directory=" directory
       ++ append_param "&fileName=" fileName
       ++ append_param "&filter=" filter
       ++ append_param "&url=" url)%list.

(** The URLs of [get_data], [get_file_list] and [get_latest_data_name]. *)
Definition get_data_url (basicUrl directory filename : string) : string :=
  get_concate_url basicUrl "getData" (Some directory) (Some filename) (Some "") (Some "").

Definition get_file_list_url (basicUrl directory : string) : string :=
  get_concate_url basicUrl "getFileList" (Some directory) (Some "") (Some "") (Some "").

Definition get_latest_data_name_url (basicUrl directory filter : string) : string :=
  get_concate_url basicUrl "getLatestDataName" (Some directory) (Some "") (Some filter) (Some "").

(** What one [self.request(url)] followed by [ParseFromString] yields: a
    parsed result (its [errorCode], [errorMessage] and [byteArray]), a
    protobuf [DecodeError], or an exception of the HTTP request itself. *)
Inductive Response : Type :=
| Parsed (errorCode : Z) (errorMessage : string) (byteArray : list Z)
| Undecodable
| RequestFailed.

Inductive Exc : Type :=
| DecodeError          (* google.protobuf.message.DecodeError *)
| FileNotFoundError    (* result_check: errorMessage == "NotFoundException" *)
| ServerError          (* result_check: Exception("...: Code ..., Message ...") *)
| RequestError.        (* raised by self.request *)

(** [result_check] on a parsed result ([result is None] cannot happen after
    [ParseFromString]). *)
Definition result_check (errorCode : Z) (errorMessage : string) : option Exc :=
  if Z.eqb errorCode 0 then None
  else if String.eqb errorMessage "NotFoundException" then Some FileNotFoundError
  else Some ServerError.

Definition get_data_once (r : Response) : Exc + list Z :=
  match r with
  | RequestFailed => inl RequestError
  | Undecodable => inl DecodeError
  | Parsed code msg bytes =>
    match result_check code msg with
    | Some e => inl e
    | None => inr bytes
    end
  end.

(** The server: the answer to the [i]-th request of the session for a URL. *)
Definition Server : Type := string -> nat -> Response.

(** [@retry(stop_max_attempt_number=3)]: every exception is retried, the
    third one is re-raised. Returns the outcome and the number of the next
    request. *)
Fixpoint retry (left : nat) (server : Server) (url : string) (i : nat) : (Exc + list Z) * nat :=
  match get_data_once (server url i) with
  | inr b => (inr b, S i)
  | inl e =>
    match left with
    | O => (inl e, S i)
    | S l => retry l server url (S i)
    end
  end.

(** [MdfsClient.get_data]: the [byteArray] of the result. *)
Definition get_data (basicUrl : string) (server : Server) (directory filename : string) (i : nat)
    : (Exc + list Z) * nat :=
  retry 2 server (get_data_url basicUrl directory filename) i.

(** [file_size_verify(pathfile, size)] for a local file of [fsize] bytes:
    [os.path.getsize(pathfile) / 1024] and [size / 1024] are float
    divisions, exact (as their difference) for sizes below 2^43 bytes. *)
Definition file_size_verify (fsize size : Z) : Z :=
  let fkbytes := (inject_Z fsize / inject_Z 1024)%Q in
  let wkbytes := (inject_Z size / inject_Z 1024)%Q in
  if Qlt_le_dec 1 (wkbytes - fkbytes) then -1 else 0.

(** The local file system: directories and files with their bytes. *)
Record FS : Type := {
  fs_dirs : list string;
  fs_files : list (string * list Z)
}.

Definition isfile (fs : FS) (p : string) : bool :=
  existsb (fun f => String.eqb (fst f) p) (fs_files fs).

Definition path_exists (fs : FS) (p : string) : bool :=
  isfile fs p || existsb (String.eqb p) (fs_dirs fs).

(** [os.makedirs(p)] (only [p] itself is tracked). *)
Definition makedirs (p : string) (fs : FS) : FS :=
  {| fs_dirs := p :: fs_dirs fs; fs_files := fs_files fs |}.

(** [open(p, "wb").write(bytes)] *)
Definition write_file (p : string) (bytes : list Z) (fs : FS) : FS :=
  {| fs_dirs := fs_dirs fs;
     fs_files := (p, bytes) :: filter (fun f => negb (String.eqb (fst f) p)) (fs_files fs) |}.

Definition getsize (fs : FS) (p : string) : Z :=
  match find (fun f => String.eqb (fst f) p) (fs_files fs) with
  | Some (_, b) => Z.of_nat (length b)
  | None => 0
  end.

Section Download.

(** [os.path.dirname], [os.path.basename] and [os.path.join] of the
    platform. *)
Variable dirname : string -> string.
Variable basename : string -> string.
Variable join : string -> string -> string.

(** [MdfsClient.download]: its return value ([None] as [inr None]), the
    file system after it and the number of the next server request. *)
Definition download (basicUrl : string) (server : Server) (pathfile : string)
    (filesize : option Z) (outdir : string) (fs : FS) (i : nat)
    : (Exc + option Z) * FS * nat :=
  let directory := dirname pathfile in
  let filename := basename pathfile in
  let outpath := (outdir ++ "/" ++ directory)%string in
  let fs := if path_exists fs outpath then fs else makedirs outpath fs in
  let pathfile := join outpath filename in
  if isfile fs pathfile then (inr (Some 0), fs, i)
  else
    match get_data basicUrl server directory filename i with
    | (inl DecodeError, i') => (inr (Some (-1)), fs, i')
    | (inl FileNotFoundError, i') => (inr (Some (-2)), fs, i')
    | (inl e, i') => (inl e, fs, i')
    | (inr bytes, i') =>
      let fs := write_file pathfile bytes fs in
      let _ := match filesize with
               | Some size => file_size_verify (getsize fs pathfile) size
               | None => 0
               end in
      (inr None, fs, i')
    end.

End Download.

Lemma sappend_assoc (a b c : string) : (a ++ b) ++ c = a ++ (b ++ c).
Proof. induction a as [|ch a IH]; cbn; [reflexivity|]. rewrite IH. reflexivity. Qed.

Lemma sappend_nil_r (a : string) : a ++ "" = a.
Proof. induction a as [|ch a IH]; cbn; [reflexivity|]. rewrite IH. reflexivity. Qed.

Lemma concat_empty (l : list string) : String.concat "" l = fold_right String.append "" l.
Proof.
  induction l as [|x l IH]; [reflexivity|].
  destruct l as [|y l]; [cbn; rewrite sappend_nil_r; reflexivity|].
  change (String.concat "" (x :: y :: l)) with (x ++ "" ++ String.concat "" (y :: l)).
  change (fold_right String.append "" (x :: y :: l)) with (x ++ fold_right String.append "" (y :: l)).
  rewrite IH. reflexivity.
Qed.

Lemma append_param_nonempty (name s : string) : s <> "" -> append_param name (Some s) = [name ++ s].
Proof. intros H. destruct s; [contradiction|reflexivity]. Qed.

Lemma append_param_empty (name : string) : append_param name (Some "") = [].
Proof. reflexivity. Qed.

Lemma retry_fail (left : nat) (server : Server) (url : string) (i : nat) (e : Exc) :
  (forall j, (i <= j <= i + left)%nat -> get_data_once (server url j) = inl e) ->
  retry left server url i = (inl e, S (i + left)).
Proof.
  revert i. induction left as [|l IH]; intros i H; cbn [retry].
  - rewrite (H i) by lia. f_equal. f_equal. lia.
  - rewrite (H i) by lia. rewrite IH; [f_equal; f_equal; lia|].
    intros j Hj. apply H. lia.
Qed.

(** The parameters are not URL-encoded: a directory containing
    ["&fileName=" ++ f] with an empty file name requests exactly the URL of
    that directory's prefix with file name [f], so the two [get_data] calls
    cannot be told apart by the server. *)
Theorem get_data_url_unescaped (basicUrl d f : string) :
  d <> "" -> f <> "" ->
  get_data_url basicUrl (d ++ "&fileName=" ++ f) "" = get_data_url basicUrl d f.
Proof.
  intros Hd Hf. unfold get_data_url, get_concate_url.
  assert (Hdf : d ++ "&fileName=" ++ f <> "") by (destruct d; [contradiction|discriminate]).
  rewrite !append_param_empty, (append_param_nonempty _ _ Hd), (append_param_nonempty _ _ Hf),
    (append_param_nonempty _ _ Hdf), !concat_empty. cbn [app fold_right].
  rewrite !sappend_nil_r, !sappend_assoc. reflexivity.
Qed.

Lemma get_data_url_unescaped_witness :
  "ECMWF_HR/TMP" <> "" /\ "850" <> "" /\
  get_data_url "http://10.0.0.1:8080/DataService" ("ECMWF_HR/TMP" ++ "&fileName=" ++ "850") "" =
  get_data_url "http://10.0.0.1:8080/DataService" "ECMWF_HR/TMP" "850".
Proof.
  assert (H1 : "ECMWF_HR/TMP" <> "") by discriminate.
  assert (H2 : "850" <> "") by discriminate.
  split; [exact H1|]. split; [exact H2|]. exact (get_data_url_unescaped _ _ _ H1 H2).
Defined.

(** [file_size_verify] reports a failure ([-1]) exactly when the expected
    size exceeds the local file's size by more than 1024 bytes: a larger
    file, or one short by at most 1 KiB, passes. *)
Theorem file_size_verify_tolerance (fsize size : Z) :
  file_size_verify fsize size = -1 <-> 1024 < size - fsize.
Proof.
  unfold file_size_verify.
  destruct (Qlt_le_dec 1 (inject_Z size / inject_Z 1024 - inject_Z fsize / inject_Z 1024)) as [H|H];
    unfold Qlt, Qle in H; cbn in H; split; intros; lia.
Qed.

Section DownloadProps.

Variable dirname : string -> string.
Variable basename : string -> string.
Variable join : string -> string -> string.

Lemma mkdir_if_missing_files (fs : FS) (p : string) :
  fs_files (if path_exists fs p then fs else makedirs p fs) = fs_files fs.
Proof. destruct (path_exists fs p); reflexivity. Qed.

Lemma mkdir_if_missing_isfile (fs : FS) (p q : string) :
  isfile (if path_exists fs p then fs else makedirs p fs) q = isfile fs q.
Proof. unfold isfile. rewrite mkdir_if_missing_files. reflexivity. Qed.

(** An existing local file is never fetched again: [download] returns 0
    without any request to the server and without touching the file. *)
Theorem download_existing_file (basicUrl : string) (server : Server) (pathfile : string)
    (filesize : option Z) (outdir : string) (fs : FS) (i : nat) :
  isfile fs (join (outdir ++ "/" ++ dirname pathfile) (basename pathfile)) = true ->
  exists fs', download dirname basename join basicUrl server pathfile filesize outdir fs i
              = (inr (Some 0), fs', i) /\ fs_files fs' = fs_files fs.
Proof.
  intros H. unfold download. cbv zeta. rewrite mkdir_if_missing_isfile, H.
  eexists. split; [reflexivity|]. apply mkdir_if_missing_files.
Qed.

(** A failing download is attempted three times ([@retry] on [get_data])
    before [download] gives up: a protobuf decode error then yields -1, a
    missing file -2, and any other error propagates; nothing is written. *)
Theorem download_three_failures (basicUrl : string) (server : Server) (pathfile : string)
    (filesize : option Z) (outdir : string) (fs : FS) (i : nat) (e : Exc) :
  isfile fs (join (outdir ++ "/" ++ dirname pathfile) (basename pathfile)) = false ->
  (forall j, (i <= j <= i + 2)%nat ->
     get_data_once (server (get_data_url basicUrl (dirname pathfile) (basename pathfile)) j) = inl e) ->
  exists fs', download dirname basename join basicUrl server pathfile filesize outdir fs i
              = (match e with
                 | DecodeError => inr (Some (-1))
                 | FileNotFoundError => inr (Some (-2))
                 | _ => inl e
                 end, fs', (i + 3)%nat) /\ fs_files fs' = fs_files fs.
Proof.
  intros Hf He. unfold download. cbv zeta. rewrite mkdir_if_missing_isfile, Hf.
  unfold get_data. rewrite (retry_fail 2 _ _ i e He).
  replace (S (i + 2)) with (i + 3)%nat by lia.
  eexists. split; [destruct e; reflexivity|]. apply mkdir_if_missing_files.
Qed.

(** A successful download writes the received bytes and returns [None]
    (not 0) whatever [filesize] is, whichever of the three attempts of
    [get_data] succeeded: the result of [file_size_verify], -1 for a file
    more than 1 KiB short, is discarded. *)
Theorem download_success_returns_none (basicUrl : string) (server : Server) (pathfile : string)
    (filesize : option Z) (outdir : string) (fs : FS) (i i' : nat) (bytes : list Z) :
  let target := join (outdir ++ "/" ++ dirname pathfile) (basename pathfile) in
  isfile fs target = false ->
  get_data basicUrl server (dirname pathfile) (basename pathfile) i = (inr bytes, i') ->
  exists fs0, download dirname basename join basicUrl server pathfile filesize outdir fs i
              = (inr None, write_file target bytes fs0, i') /\
              fs_files fs0 = fs_files fs /\
              getsize (write_file target bytes fs0) target = Z.of_nat (length bytes).
Proof.
  intros target Hf Hs. unfold download. cbv zeta. fold target.
  rewrite mkdir_if_missing_isfile, Hf, Hs.
  eexists. split; [reflexivity|]. split; [apply mkdir_if_missing_files|].
  unfold getsize, write_file. cbn [fs_files find fst]. rewrite String.eqb_refl. reflexivity.
Qed.

End DownloadProps.

(** A concrete setting: POSIX-like path helpers for fixed names. *)
Definition ex_dirname (p : string) : string := "ECMWF_HR/TMP/850".
Definition ex_basename (p : string) : string := "24010108.024".
Definition ex_join (a b : string) : string := a ++ "/" ++ b.
Definition ex_target : string := "S:/micaps/ECMWF_HR/TMP/850/24010108.024".
Definition ex_url : string := "http://10.0.0.1:8080/DataService".

Lemma download_existing_file_witness :
  let fs := {| fs_dirs := []; fs_files := [(ex_target, [7])] |} in
  isfile fs (ex_join ("S:/micaps" ++ "/" ++ ex_dirname ex_target) (ex_basename ex_target)) = true /\
  exists fs', download ex_dirname ex_basename ex_join ex_url (fun _ _ => Parsed 0 "" [1; 2])
                ex_target None "S:/micaps" fs 5 = (inr (Some 0), fs', 5%nat) /\
              fs_files fs' = fs_files fs.
Proof.
  intros fs.
  assert (H : isfile fs (ex_join ("S:/micaps" ++ "/" ++ ex_dirname ex_target) (ex_basename ex_target)) = true)
    by reflexivity.
  split; [exact H|].
  exact (download_existing_file ex_dirname ex_basename ex_join ex_url (fun _ _ => Parsed 0 "" [1; 2])
           ex_target None "S:/micaps" fs 5 H).
Defined.

Lemma download_three_failures_witness :
  let fs := {| fs_dirs := []; fs_files := [] |} in
  let server : Server := fun _ _ => Parsed 1 "NotFoundException" [] in
  isfile fs (ex_join ("S:/micaps" ++ "/" ++ ex_dirname ex_target) (ex_basename ex_target)) = false /\
  (forall j, (0 <= j <= 0 + 2)%nat ->
     get_data_once (server (get_data_url ex_url (ex_dirname ex_target) (ex_basename ex_target)) j)
     = inl FileNotFoundError) /\
  exists fs', download ex_dirname ex_basename ex_join ex_url server ex_target None "S:/micaps" fs 0
              = (inr (Some (-2)), fs', 3%nat) /\ fs_files fs' = [].
Proof.
  intros fs server.
  assert (H1 : isfile fs (ex_join ("S:/micaps" ++ "/" ++ ex_dirname ex_target) (ex_basename ex_target)) = false)
    by reflexivity.
  assert (H2 : forall j, (0 <= j <= 0 + 2)%nat ->
     get_data_once (server (get_data_url ex_url (ex_dirname ex_target) (ex_basename ex_target)) j)
     = inl FileNotFoundError) by (intros; reflexivity).
  split; [exact H1|]. split; [exact H2|].
  exact (download_three_failures ex_dirname ex_basename ex_join ex_url server ex_target None
           "S:/micaps" fs 0 FileNotFoundError H1 H2).
Defined.

(** The first request fails to decode, the retried one succeeds. *)
Definition ex_flaky_server : Server :=
  fun _ j => match j with O => Undecodable | S _ => Parsed 0 "" [1; 2; 3] end.

Lemma download_success_returns_none_witness :
  let fs := {| fs_dirs := []; fs_files := [] |} in
  isfile fs (ex_join ("S:/micaps" ++ "/" ++ ex_dirname ex_target) (ex_basename ex_target)) = false /\
  get_data ex_url ex_flaky_server (ex_dirname ex_target) (ex_basename ex_target) 0 = (inr [1; 2; 3], 2%nat) /\
  file_size_verify 3 4096 = -1 /\
  exists fs0, download ex_dirname ex_basename ex_join ex_url ex_flaky_server ex_target (Some 4096)
                "S:/micaps" fs 0
              = (inr None, write_file ex_target [1; 2; 3] fs0, 2%nat) /\
              fs_files fs0 = [] /\ getsize (write_file ex_target [1; 2; 3] fs0) ex_target = 3.
Proof.
  intros fs.
  assert (H1 : isfile fs (ex_join ("S:/micaps" ++ "/" ++ ex_dirname ex_target) (ex_basename ex_target)) = false)
    by reflexivity.
  assert (H2 : get_data ex_url ex_flaky_server (ex_dirname ex_target) (ex_basename ex_target) 0
    = (inr [1; 2; 3], 2%nat)) by reflexivity.
  split; [exact H1|]. split; [exact H2|]. split; [vm_compute; reflexivity|].
  exact (download_success_returns_none ex_dirname ex_basename ex_join ex_url ex_flaky_server ex_target
           (Some 4096) "S:/micaps" fs 0 2 [1; 2; 3] H1 H2).
Defined.

End Client.


(** ** [MdfsClient.walk] and [get_path_file_list] *)

Module ClientWalk.

Open Scope string_scope.

(** [s[-1]], [None] standing for the [IndexError] of an empty string. *)
Fixpoint last_char (s : string) : option ascii :=
  match s with
  | EmptyString => None
  | String c EmptyString => Some c
  | String _ r => last_char r
  end.

Definition is_dir_mark (v : string) : bool := String.eqb v "D".

Inductive WalkError : Type :=
| IndexError       (* directory[-1] on an empty path *)
| ListError        (* get_file_list raised (after its retries) *)
| ValueError       (* int(v) of a listed size *)
| RecursionError.  (* the interpreter's recursion limit *)

(** One tuple [(directory, dirs, nondirs, nondirs)] that [walk] yields. *)
Definition Yield : Type := string * list string * list string * list string.

Fixpoint all_ints {A : Type} (py_int : string -> option A) (l : list string) : bool :=
  match l with
  | [] => true
  | v :: r => match py_int v with Some _ => all_ints py_int r | None => false end
  end.

Section Walk.

(** [get_file_list(directory).resultMap] (in its iteration order), or the
    exception it raises; [urljoin], [os.path.join] and [int()] on a size. *)
Variable get_file_list : string -> option (list (string * string)).
Variable urljoin : string -> string -> string.
Variable path_join : string -> string -> string.
Variable py_int : string -> option Z.

(** The tuples a generator yields before it stops, and the exception that
    stopped it ([None]: exhausted normally). *)
Definition Trace (A : Type) : Type := list A * option WalkError.

(** [for dirname in dirs: yield from self.walk(urljoin(directory, dirname))] *)
Fixpoint walk_dirs (w : string -> Trace Yield) (directory : string) (dirs : list string)
    : Trace Yield :=
  match dirs with
  | [] => ([], None)
  | d :: ds =>
    let (ys, e) := w (urljoin directory d) in
    match e with
    | Some _ => (ys, e)
    | None => let (ys', e') := walk_dirs w directory ds in ((ys ++ ys')%list, e')
    end
  end.

(** [MdfsClient.walk]; [fuel] bounds the recursion depth. *)
Fixpoint walk (fuel : nat) (directory : string) : Trace Yield :=
  match fuel with
  | O => ([], Some RecursionError)
  | S f =>
    match last_char directory with
    | None => ([], Some IndexError)
    | Some c =>
      let directory := if Ascii.eqb c "/"%char then directory else directory ++ "/" in
      match get_file_list directory with
      | None => ([], Some ListError)
      | Some rm =>
        let dirs := map fst (filter (fun kv => is_dir_mark (snd kv)) rm) in
        let nondirs := map fst (filter (fun kv => negb (is_dir_mark (snd kv))) rm) in
        if all_ints py_int (map snd (filter (fun kv => negb (is_dir_mark (snd kv))) rm)) then
          let (ys, e) := walk_dirs (walk f) directory dirs in
          match e with
          | Some _ => (ys, e)
          | None => ((ys ++ [(directory, dirs, nondirs, nondirs)])%list, None)
          end
        else ([], Some ValueError)
      end
    end
  end.

(** [MdfsClient.get_path_file_list] *)
Definition get_path_file_list (fuel : nat) (path : string) : Trace string :=
  let (ys, e) := walk fuel path in
  (flat_map (fun y : Yield =>
     let '(top, dir, files, _) := y in
     if Nat.eqb (length dir) 0 && Nat.ltb 0 (length files) then map (path_join top) files else [])
     ys, e).

End Walk.

Section WalkProps.

Variable get_file_list : string -> option (list (string * string)).
Variable urljoin : string -> string -> string.
Variable path_join : string -> string -> string.
Variable py_int : string -> option Z.

(** What every tuple of [walk] satisfies. *)
Definition good_yield (y : Yield) : Prop :=
  let '(top, dirs, files, sizes) := y in
  sizes = files /\ last_char top = Some "/"%char /\
  exists rm, get_file_list top = Some rm /\
    dirs = map fst (filter (fun kv => is_dir_mark (snd kv)) rm) /\
    files = map fst (filter (fun kv => negb (is_dir_mark (snd kv))) rm).

Lemma last_char_append_slash (s : string) : last_char (s ++ "/") = Some "/"%char.
Proof.
  induction s as [|c r IH]; [reflexivity|].
  cbn [append last_char]. destruct (r ++ "/") eqn:E; [destruct r; discriminate|]. exact IH.
Qed.

Lemma walk_dirs_good (w : string -> Trace Yield) (directory : string) (dirs : list string) :
  (forall p, Forall good_yield (fst (w p))) ->
  Forall good_yield (fst (walk_dirs urljoin w directory dirs)).
Proof.
  intros Hw. induction dirs as [|d ds IH]; cbn [walk_dirs]; [constructor|].
  specialize (Hw (urljoin directory d)).
  destruct (w (urljoin directory d)) as [ys [e|]]; [exact Hw|].
  destruct (walk_dirs urljoin w directory ds) as [ys' e']. cbn [fst] in *.
  apply Forall_app. split; assumption.
Qed.

Lemma walk_good (fuel : nat) (directory : string) :
  Forall good_yield (fst (walk get_file_list urljoin py_int fuel directory)).
Proof.
  revert directory. induction fuel as [|f IH]; intros directory; cbn [walk]; [constructor|].
  destruct (last_char directory) as [c|] eqn:Hc; [|constructor].
  set (dir' := if Ascii.eqb c "/"%char then directory else directory ++ "/").
  assert (Hslash : last_char dir' = Some "/"%char).
  { unfold dir'. destruct (Ascii.eqb_spec c "/"%char) as [->|_]; [exact Hc|].
    apply last_char_append_slash. }
  destruct (get_file_list dir') as [rm|] eqn:Hrm; [|constructor].
  destruct (all_ints py_int _); [|constructor].
  pose proof (walk_dirs_good (walk get_file_list urljoin py_int f) dir'
                (map fst (filter (fun kv => is_dir_mark (snd kv)) rm)) IH) as Hd.
  destruct (walk_dirs urljoin (walk get_file_list urljoin py_int f) dir' _) as [ys [e|]];
    [exact Hd|].
  cbn [fst] in *. apply Forall_app. split; [exact Hd|].
  constructor; [|constructor]. cbn. split; [reflexivity|]. split; [exact Hslash|].
  exists rm. split; [exact Hrm|]. split; reflexivity.
Qed.

(** Every tuple [(top, dirs, files, sizes)] that [walk] yields has [top]
    ending in ['/'], [dirs] and [files] the keys of [top]'s listing marked
    ['D'] and not marked ['D'], and as its fourth component the file NAMES
    again: the parsed sizes [nondirsize] are never yielded. *)
Theorem walk_yields_names_as_sizes (fuel : nat) (directory : string) :
  Forall good_yield (fst (walk get_file_list urljoin py_int fuel directory)).
Proof. exact (walk_good fuel directory). Qed.

Lemma filter_nil_forall {A : Type} (p : A -> bool) (l : list A) :
  filter p l = [] -> forall x, In x l -> p x = false.
Proof.
  induction l as [|a l IH]; cbn; [tauto|].
  destruct (p a) eqn:Ea; [discriminate|]. intros H x [<-|Hx]; [exact Ea|]. exact (IH H x Hx).
Qed.

(** [get_path_file_list] yields only files of LEAF directories: every path
    is [os.path.join(top, f)] for a listed directory [top] none of whose
    entries is marked ['D'] and a key [f] of its listing; the files of a
    directory that also has sub-directories are never yielded. *)
Theorem get_path_file_list_leaf_only (fuel : nat) (path : string) :
  Forall (fun p => exists top rm f v,
            get_file_list top = Some rm /\
            (forall kv, In kv rm -> snd kv <> "D") /\
            In (f, v) rm /\ p = path_join top f)
    (fst (get_path_file_list get_file_list urljoin path_join py_int fuel path)).
Proof.
  unfold get_path_file_list.
  pose proof (walk_good fuel path) as Hw.
  destruct (walk get_file_list urljoin py_int fuel path) as [ys e]. cbn [fst] in *.
  apply Forall_forall. intros p Hp. apply in_flat_map in Hp as [[[[top dirs] files] sizes] [Hy Hp]].
  rewrite Forall_forall in Hw. specialize (Hw _ Hy). cbn in Hw.
  destruct Hw as (_ & _ & rm & Hrm & Hdirs & Hfiles).
  destruct (Nat.eqb (length dirs) 0 && Nat.ltb 0 (length files)) eqn:Eleaf; [|destruct Hp].
  apply andb_true_iff in Eleaf as [Hl _]. apply Nat.eqb_eq, length_zero_iff_nil in Hl.
  apply in_map_iff in Hp as [f [<- Hf]].
  rewrite Hfiles in Hf. apply in_map_iff in Hf as [[f' v] [Ef Hin]]. cbn in Ef. subst f'.
  apply filter_In in Hin as [Hin _].
  exists top, rm, f, v. split; [exact Hrm|]. split; [|split; [exact Hin|reflexivity]].
  intros kv Hkv HD. rewrite Hdirs in Hl. apply map_eq_nil in Hl.
  pose proof (filter_nil_forall _ _ Hl kv Hkv) as Hf. cbn in Hf. unfold is_dir_mark in Hf.
  rewrite HD in Hf. discriminate.
Qed.

End WalkProps.

(** A two-level listing: [A/] holds a file and the sub-directory [B], which
    holds one file; only [B]'s file is listed, and each tuple repeats its
    file names where the sizes are expected. *)
Definition ex_listing (d : string) : option (list (string * string)) :=
  if String.eqb d "A/" then Some [("x.txt", "10"); ("B", "D")]
  else if String.eqb d "A/B/" then Some [("y.txt", "5")]
  else None.

Lemma walk_example :
  walk ex_listing append PyTok.dec_int 5 "A" =
    ([("A/B/", [], ["y.txt"], ["y.txt"]); ("A/", ["B"], ["x.txt"], ["x.txt"])], None)
  /\ get_path_file_list ex_listing append append PyTok.dec_int 5 "A" = (["A/B/y.txt"], None).
Proof. split; reflexivity. Qed.

End ClientWalk.


(** ** [MdfsGridData.read]: single- and multi-block grid files *)

Module MdfsGrid.

Open Scope Z_scope.

Inductive ReadError : Type :=
| StructError            (* unpack(...) on a slice of the wrong length *)
| HeadError              (* MdfsGridHead's decoding and casts *)
| DtypeTypeError         (* np.frombuffer(..., '-nf'): a negative point count *)
| FrombufferValueError   (* np.frombuffer: zero item size, or a partial item *)
| ReshapeValueError      (* .reshape(longitudeGridNumber, latitudeGridNumber) *)
| XarrayError.           (* to_xarray / xr.concat *)

Section Read.

(** The header fields [read] uses; [rest] stands for the others. *)
Variable HeadRest : Type.

Record MdfsGridHead : Type := {
  dtype : Z;
  latitudeGridNumber : Z;
  longitudeGridNumber : Z;
  rest : HeadRest
}.

(** [MdfsGridHead( *unpack('=4sh20s50s30sfiiiiiifffifffifff100s', hb))] on
    exactly 278 bytes, and a float32 from its 4 bytes. *)
Variable unpack_head : list Z -> option MdfsGridHead.
Variable F : Type.
Variable f32 : list Z -> F.

Fixpoint floats4 (l : list Z) : list F :=
  match l with
  | a :: b :: c :: d :: r => f32 [a; b; c; d] :: floats4 r
  | _ => []
  end.

Inductive GridData : Type :=
| Scalar (data : list (list F))
| Vector (magnitude angle : list (list F)).

(** [np.frombuffer(body, '{n}f')] flattened: one item of [n] floats, or an
    empty array when [body] is empty. *)
Definition frombuffer (n : Z) (body : list Z) : ReadError + list F :=
  if n <? 0 then inl DtypeTypeError
  else if n =? 0 then inl FrombufferValueError
  else if Z.of_nat (length body) =? 4 * n then inr (floats4 body)
  else if Nat.eqb (length body) 0 then inr []
  else inl FrombufferValueError.

(** [np.array(...).reshape(head.longitudeGridNumber, head.latitudeGridNumber)] *)
Definition reshape (head : MdfsGridHead) (vals : list F) : ReadError + list (list F) :=
  match Diamond2.reshape2 (Z.of_nat (length vals)) (longitudeGridNumber head) (latitudeGridNumber head) with
  | None => inl ReshapeValueError
  | Some (r, c) => inr (Diamond2.chunks (Z.to_nat c) (Z.to_nat r) vals)
  end.

(** The nested [read_block(bytes_arr)] (with its default [p = 0]); the angle
    field of a vector grid is unpacked from [bytes_array], the closure's
    whole file. *)
Definition read_block (bytes_arr bytes_array : list Z) : ReadError + (MdfsGridHead * GridData) :=
  let hb := Diamond5.py_slice bytes_arr 0 278 in
  if negb (Nat.eqb (length hb) 278) then inl StructError else
  match unpack_head hb with
  | None => inl HeadError
  | Some head =>
    let n_points := latitudeGridNumber head * longitudeGridNumber head in
    match frombuffer n_points (Diamond5.py_slice bytes_arr 278 (278 + n_points * 4)) with
    | inl e => inl e
    | inr body =>
      match reshape head body with
      | inl e => inl e
      | inr data =>
        if dtype head =? 11 then
          let size := Z.of_nat (length body) in
          let p := 278 + size * 4 in
          let block_size := p + size * 4 in
          let angle_bytes := Diamond5.py_slice bytes_array p block_size in
          if negb (Z.of_nat (length angle_bytes) =? 4 * size) then inl StructError else
          match reshape head (floats4 angle_bytes) with
          | inl e => inl e
          | inr data_angle => inr (head, Vector data data_angle)
          end
        else inr (head, Scalar data)
      end
    end
  end.

(** Whether [self.to_xarray(...)] of a block succeeds, and whether
    [xr.concat] of the blocks does. *)
Variable to_xarray_ok : MdfsGridHead -> GridData -> bool.
Variable concat_ok : list (MdfsGridHead * GridData) -> bool.

Inductive ReadResult : Type :=
| Single (head : MdfsGridHead) (data : GridData)
| Multi (blocks : list (MdfsGridHead * GridData)).

Fixpoint all_ok {E A : Type} (l : list (E + A)) : E + list A :=
  match l with
  | [] => inr []
  | inl e :: _ => inl e
  | inr a :: r => match all_ok r with inl e => inl e | inr xs => inr (a :: xs) end
  end.

Definition block_size_of (head : MdfsGridHead) : Z :=
  let size := latitudeGridNumber head * longitudeGridNumber head in
  278 + size * 4 * (if dtype head =? 11 then 2 else 1).

(** Block [i] of a multi-block file, read and converted. *)
Definition read_nth_block (bytes_array : list Z) (block_size : Z) (i : nat)
    : ReadError + (MdfsGridHead * GridData) :=
  let z := Z.of_nat i in
  match read_block (Diamond5.py_slice bytes_array (block_size * z) (block_size * (z + 1))) bytes_array with
  | inl e => inl e
  | inr (h, d) => if to_xarray_ok h d then inr (h, d) else inl XarrayError
  end.

(** [MdfsGridData.read(bytes_array)]: the heads and data it stores. *)
Definition read (bytes_array : list Z) : ReadError + ReadResult :=
  match read_block bytes_array bytes_array with
  | inl e => inl e
  | inr (h0, d0) =>
    let nbytes := Z.of_nat (length bytes_array) in
    let block_size := block_size_of h0 in
    if (block_size <? nbytes) && (nbytes mod block_size =? 0) then
      let nblocks := nbytes / block_size in
      if to_xarray_ok h0 d0 then
        match all_ok (map (read_nth_block bytes_array block_size) (seq 1 (Z.to_nat nblocks - 1))) with
        | inl e => inl e
        | inr others =>
          let blocks := (h0, d0) :: others in
          if concat_ok blocks then inr (Multi blocks) else inl XarrayError
        end
      else inl XarrayError
    else if to_xarray_ok h0 d0 then inr (Single h0 d0) else inl XarrayError
  end.


Lemma floats4_length (n : nat) (l : list Z) :
  length l = (4 * n)%nat -> length (floats4 l) = n.
Proof.
  revert l. induction n as [|n IH]; intros l Hl.
  - destruct l; [reflexivity|cbn in Hl; lia].
  - destruct l as [|a [|b [|c [|d r]]]]; cbn in Hl; try lia.
    cbn. f_equal. apply IH. lia.
Qed.

Lemma reshape_nil (h : MdfsGridHead) :
  0 < latitudeGridNumber h * longitudeGridNumber h -> reshape h [] = inl ReshapeValueError.
Proof.
  intros Hn. unfold reshape, Diamond2.reshape2. cbn [length Z.of_nat].
  set (a := longitudeGridNumber h) in *. set (b := latitudeGridNumber h) in *.
  destruct (Z.ltb_spec a (-1)); [reflexivity|].
  destruct (Z.ltb_spec b (-1)); [reflexivity|]. cbn [orb].
  destruct (Z.eqb_spec a (-1)), (Z.eqb_spec b (-1)); cbn [andb]; try reflexivity;
    try (exfalso; nia).
  destruct (Z.eqb_spec (a * b) 0); [nia|reflexivity].
Qed.

Lemma read_block_npos (ba bs : list Z) (h : MdfsGridHead) (d : GridData) :
  read_block ba bs = inr (h, d) -> 0 < latitudeGridNumber h * longitudeGridNumber h.
Proof.
  unfold read_block. intros H.
  destruct (negb _); [discriminate|].
  destruct (unpack_head _) as [h'|]; [|discriminate].
  unfold frombuffer in H.
  destruct (Z.ltb_spec (latitudeGridNumber h' * longitudeGridNumber h') 0); [discriminate|].
  destruct (Z.eqb_spec (latitudeGridNumber h' * longitudeGridNumber h') 0); [discriminate|].
  assert (Hh : h' = h).
  { repeat match type of H with
    | context [match ?x with _ => _ end] => destruct x; try discriminate
    end; congruence. }
  subst h'. lia.
Qed.

Lemma py_slice_app_l {A : Type} (l e : list A) (a b : Z) :
  0 <= a <= b -> b <= Z.of_nat (length l) ->
  Diamond5.py_slice (l ++ e) a b = Diamond5.py_slice l a b.
Proof.
  intros Hab Hb. unfold Diamond5.py_slice. rewrite length_app.
  destruct (Z.ltb_spec a 0); [lia|]. destruct (Z.ltb_spec b 0); [lia|].
  rewrite !(Z.min_l b), !(Z.min_l a) by lia.
  rewrite skipn_app. replace (Z.to_nat a - length l)%nat with 0%nat by lia.
  rewrite skipn_O, firstn_app, length_skipn.
  replace (Z.to_nat (b - a) - (length l - Z.to_nat a))%nat with 0%nat by lia.
  rewrite firstn_O, app_nil_r. reflexivity.
Qed.

Lemma all_ok_in {E A : Type} (l : list (E + A)) (xs : list A) :
  all_ok l = inr xs -> length xs = length l /\ Forall (fun x => In (inr x) l) xs.
Proof.
  revert xs. induction l as [|[e|a] l IH]; intros xs H; cbn in H.
  - injection H as <-. split; [reflexivity|constructor].
  - discriminate.
  - destruct (all_ok l) as [e|ys]; [discriminate|]. injection H as <-.
    destruct (IH ys eq_refl) as [Hl Hf]. split; [cbn; f_equal; exact Hl|].
    constructor; [left; reflexivity|].
    eapply Forall_impl; [|exact Hf]. intros x Hx. right. exact Hx.
Qed.

Lemma read_multi_blocks (bs : list Z) (blocks : list (MdfsGridHead * GridData)) :
  read bs = inr (Multi blocks) ->
  exists h0 d0 others,
    read_block bs bs = inr (h0, d0) /\ blocks = (h0, d0) :: others /\
    block_size_of h0 < Z.of_nat (length bs) /\
    Z.of_nat (length bs) mod block_size_of h0 = 0 /\
    length others = (Z.to_nat (Z.of_nat (length bs) / block_size_of h0) - 1)%nat /\
    Forall (fun x => exists i, read_nth_block bs (block_size_of h0) i = inr x) others.
Proof.
  unfold read. intros H.
  destruct (read_block bs bs) as [|[h0 d0]] eqn:E0; [discriminate|].
  destruct (Z.ltb_spec (block_size_of h0) (Z.of_nat (length bs))) as [Hlt|Hge]; cbn [andb] in H.
  - destruct (Z.eqb_spec (Z.of_nat (length bs) mod block_size_of h0) 0) as [Hm|Hm].
    + destruct (to_xarray_ok h0 d0); [|discriminate].
      destruct (all_ok _) as [|others] eqn:Ea; [discriminate|].
      destruct (concat_ok _); [|discriminate]. injection H as <-.
      apply all_ok_in in Ea as [Hl Hf]. rewrite length_map, length_seq in Hl.
      exists h0, d0, others. repeat split; try assumption.
      eapply Forall_impl; [|exact Hf]. intros x Hx.
      apply in_map_iff in Hx as (i & Hi & _). exists i. exact Hi.
    + destruct (to_xarray_ok h0 d0); discriminate.
  - destruct (to_xarray_ok h0 d0); discriminate.
Qed.

Lemma read_block_vector (ba bs : list Z) (h : MdfsGridHead) (m a : list (list F)) :
  read_block ba bs = inr (h, Vector m a) ->
  let s := latitudeGridNumber h * longitudeGridNumber h in
  reshape h (floats4 (Diamond5.py_slice ba 278 (278 + s * 4))) = inr m /\
  reshape h (floats4 (Diamond5.py_slice bs (278 + s * 4) (278 + s * 4 + s * 4))) = inr a.
Proof.
  intros H. pose proof (read_block_npos ba bs h _ H) as Hpos. revert H.
  unfold read_block. intros H.
  destruct (negb _); [discriminate|].
  destruct (unpack_head _) as [h'|]; [|discriminate].
  unfold frombuffer in H.
  destruct (Z.ltb_spec (latitudeGridNumber h' * longitudeGridNumber h') 0) as [?|Hn1]; [discriminate|].
  destruct (Z.eqb_spec (latitudeGridNumber h' * longitudeGridNumber h') 0) as [?|Hn2]; [discriminate|].
  set (n := latitudeGridNumber h' * longitudeGridNumber h') in *.
  set (body := Diamond5.py_slice ba 278 (278 + n * 4)) in *.
  destruct (Z.eqb_spec (Z.of_nat (length body)) (4 * n)) as [Hb|Hb].
  - assert (Hl : length (floats4 body) = Z.to_nat n) by (apply floats4_length; lia).
    destruct (reshape h' (floats4 body)) as [|data] eqn:Em; [discriminate|].
    destruct (dtype h' =? 11); [|discriminate].
    rewrite Hl, Z2Nat.id in H by lia.
    destruct (negb _); [discriminate|].
    destruct (reshape h' (floats4 (Diamond5.py_slice bs _ _))) as [|da] eqn:Ea; [discriminate|].
    injection H as <- <- <-. split; [exact Em | exact Ea].
  - destruct (Nat.eqb (length body) 0) eqn:E0; [|discriminate].
    assert (Hh : h' = h).
    { repeat match type of H with
      | context [match ?x with _ => _ end] => destruct x; try discriminate
      end; congruence. }
    subst h'. rewrite reshape_nil in H by lia. discriminate.
Qed.

Lemma reshape_dims (h h' : MdfsGridHead) (vals : list F) :
  latitudeGridNumber h = latitudeGridNumber h' ->
  longitudeGridNumber h = longitudeGridNumber h' -> reshape h vals = reshape h' vals.
Proof. intros E1 E2. unfold reshape. rewrite E1, E2. reflexivity. Qed.

Lemma all_ok_nth {E A : Type} (l : list (E + A)) (xs : list A) (k : nat) (x : A) :
  all_ok l = inr xs -> nth_error xs k = Some x -> nth_error l k = Some (inr x).
Proof.
  revert xs k. induction l as [|[e|y] l IH]; intros xs k H Hk; cbn in H.
  - injection H as <-. destruct k; discriminate.
  - discriminate.
  - destruct (all_ok l) as [e|ys] eqn:Ea; [discriminate|]. injection H as <-.
    destruct k as [|k]; cbn in Hk |- *; [congruence | exact (IH ys k eq_refl Hk)].
Qed.

Lemma read_multi_blocks_nth (bs : list Z) (blocks : list (MdfsGridHead * GridData)) :
  read bs = inr (Multi blocks) ->
  exists h0 d0 others,
    read_block bs bs = inr (h0, d0) /\ blocks = (h0, d0) :: others /\
    forall k x, nth_error others k = Some x -> read_nth_block bs (block_size_of h0) (S k) = inr x.
Proof.
  unfold read. intros H.
  destruct (read_block bs bs) as [|[h0 d0]] eqn:E0; [discriminate|].
  destruct (_ && _); [|destruct (to_xarray_ok h0 d0); discriminate].
  destruct (to_xarray_ok h0 d0); [|discriminate].
  destruct (all_ok _) as [|others] eqn:Ea; [discriminate|].
  destruct (concat_ok _); [|discriminate]. injection H as <-.
  exists h0, d0, others. split; [reflexivity|]. split; [reflexivity|].
  intros k x Hk. pose proof (all_ok_nth _ _ k x Ea Hk) as Hn.
  rewrite nth_error_map, nth_error_seq in Hn.
  destruct (Nat.ltb k _); [|discriminate]. cbn in Hn. injection Hn as Hn. exact Hn.
Qed.

(** In a file of several vector blocks ([dtype == 11]), the angle field of
    every block is read from the start of the whole file, not from the block:
    for block [k + 1], with [s] its point count and [B] the block size of the
    first header, the magnitude is the floats of bytes [278] to [278 + 4s] of
    its own slice [bytes_array[B(k+1) : B(k+2)]], while the angle is the
    floats of bytes [278 + 4s] to [278 + 8s] of [bytes_array]. So a later
    block whose header declares the same grid as the first block gets exactly
    the first block's angle array; the first block's angle is read from the
    same bytes. *)
Theorem read_multi_angle_from_file_start (bs : list Z) (blocks : list (MdfsGridHead * GridData)) :
  read bs = inr (Multi blocks) ->
  exists h0 d0 others, blocks = (h0, d0) :: others /\
    (forall m0 a0, d0 = Vector m0 a0 ->
       let s0 := latitudeGridNumber h0 * longitudeGridNumber h0 in
       reshape h0 (floats4 (Diamond5.py_slice bs (278 + s0 * 4) (278 + s0 * 4 + s0 * 4))) = inr a0) /\
    forall k h m a, nth_error others k = Some (h, Vector m a) ->
      let s := latitudeGridNumber h * longitudeGridNumber h in
      let z := Z.of_nat (S k) in
      let blk := Diamond5.py_slice bs (block_size_of h0 * z) (block_size_of h0 * (z + 1)) in
      reshape h (floats4 (Diamond5.py_slice blk 278 (278 + s * 4))) = inr m /\
      reshape h (floats4 (Diamond5.py_slice bs (278 + s * 4) (278 + s * 4 + s * 4))) = inr a /\
      (forall m0 a0, d0 = Vector m0 a0 ->
         latitudeGridNumber h = latitudeGridNumber h0 ->
         longitudeGridNumber h = longitudeGridNumber h0 -> a = a0).
Proof.
  intros H. apply read_multi_blocks_nth in H as (h0 & d0 & others & E0 & -> & Hn).
  exists h0, d0, others. split; [reflexivity|]. split.
  - intros m0 a0 ->. exact (proj2 (read_block_vector bs bs h0 m0 a0 E0)).
  - intros k h m a Hk. specialize (Hn k _ Hk). unfold read_nth_block in Hn. cbv zeta in Hn |- *.
    match type of Hn with
    | context [read_block ?x bs] => destruct (read_block x bs) as [|[h' d']] eqn:Eb; [discriminate|]
    end.
    destruct (to_xarray_ok h' d'); [|discriminate]. injection Hn as -> ->.
    destruct (read_block_vector _ bs h m a Eb) as [Hm Ha].
    split; [exact Hm|]. split; [exact Ha|].
    intros m0 a0 -> E1 E2. destruct (read_block_vector bs bs h0 m0 a0 E0) as [_ Ha0].
    rewrite (reshape_dims h h0 _ E1 E2), E1, E2 in Ha. congruence.
Qed.

(** A file read as several blocks has at least two of them, and its length
    is exactly their number times the block size [278 + 4s] ([278 + 8s] for a
    vector grid) computed from the first block's header. *)
Theorem read_multi_block_count (bs : list Z) (blocks : list (MdfsGridHead * GridData)) :
  read bs = inr (Multi blocks) ->
  exists h0 d0 others, blocks = (h0, d0) :: others /\
    (2 <= length blocks)%nat /\
    Z.of_nat (length blocks) * block_size_of h0 = Z.of_nat (length bs).
Proof.
  intros H. apply read_multi_blocks in H as (h0 & d0 & others & E0 & -> & Hlt & Hm & Hl & _).
  exists h0, d0, others. split; [reflexivity|].
  pose proof (read_block_npos bs bs h0 d0 E0) as Hpos.
  assert (HB : 0 < block_size_of h0).
  { unfold block_size_of. destruct (dtype h0 =? 11); lia. }
  pose proof (Z.div_mod (Z.of_nat (length bs)) (block_size_of h0) ltac:(lia)) as Hd.
  rewrite Hm, Z.add_0_r in Hd.
  set (q := Z.of_nat (length bs) / block_size_of h0) in *.
  assert (Hq : 1 < q) by nia.
  cbn [length]. rewrite Hl. split; [lia|].
  rewrite Nat2Z.inj_succ, Nat2Z.inj_sub, Z2Nat.id by lia. lia.
Qed.

Lemma read_block_app (bs extra : list Z) (h : MdfsGridHead) (d : GridData) :
  read_block bs bs = inr (h, d) -> block_size_of h <= Z.of_nat (length bs) ->
  read_block (bs ++ extra) (bs ++ extra) = inr (h, d).
Proof.
  intros H HB. pose proof (read_block_npos bs bs h d H) as Hpos.
  assert (HB1 : 278 + latitudeGridNumber h * longitudeGridNumber h * 4 <= Z.of_nat (length bs)).
  { unfold block_size_of in HB. destruct (dtype h =? 11); lia. }
  assert (Hhd : unpack_head (Diamond5.py_slice bs 0 278) = Some h).
  { unfold read_block in H. destruct (negb _); [discriminate|].
    destruct (unpack_head _) as [h'|]; [|discriminate].
    f_equal. repeat match type of H with
      | context [match ?x with _ => _ end] => destruct x; try discriminate
      end; congruence. }
  unfold read_block in H |- *.
  rewrite (py_slice_app_l bs extra 0 278) by lia. rewrite Hhd in H |- *.
  destruct (negb _); [discriminate|].
  set (n := latitudeGridNumber h * longitudeGridNumber h) in *.
  rewrite (py_slice_app_l bs extra 278 (278 + n * 4)) by lia.
  destruct (frombuffer n _) as [|body] eqn:Ef; [discriminate|].
  destruct (reshape h body) as [|data] eqn:Er; [discriminate|].
  destruct (dtype h =? 11) eqn:Ed; [|exact H].
  assert (Hl : Z.of_nat (length body) = n).
  { unfold frombuffer in Ef.
    destruct (Z.ltb_spec n 0) as [?|_]; [lia|]. destruct (Z.eqb_spec n 0) as [?|_]; [lia|].
    destruct (Z.eqb_spec (Z.of_nat (length (Diamond5.py_slice bs 278 (278 + n * 4)))) (4 * n))
      as [Hb|_].
    - assert (Eb : body = floats4 (Diamond5.py_slice bs 278 (278 + n * 4))) by congruence.
      rewrite Eb, (floats4_length (Z.to_nat n)) by lia. lia.
    - destruct (Nat.eqb _ 0); [|discriminate].
      assert (Eb : body = []) by congruence. subst body.
      rewrite reshape_nil in Er by lia. discriminate. }
  rewrite Hl in H |- *.
  rewrite (py_slice_app_l bs extra) by (unfold block_size_of in HB; rewrite Ed in HB; fold n in HB; lia).
  exact H.
Qed.

(** Bytes after a single block that do not bring the length to a multiple of
    the block size are ignored: a file holding exactly one block reads the
    same header and grid when anything is appended to it, unless the new
    length is again a multiple of the block size. *)
Theorem read_trailing_bytes_ignored (bs extra : list Z) (h : MdfsGridHead) (d : GridData) :
  read bs = inr (Single h d) ->
  Z.of_nat (length bs) = block_size_of h ->
  Z.of_nat (length (bs ++ extra)) mod block_size_of h <> 0 ->
  read (bs ++ extra) = inr (Single h d).
Proof.
  intros H Hlen Hmod. unfold read in *.
  destruct (read_block bs bs) as [|[h0 d0]] eqn:E0; [discriminate|].
  destruct (Z.ltb_spec (block_size_of h0) (Z.of_nat (length bs))); cbn [andb] in H.
  { repeat match type of H with
    | context [match ?x with _ => _ end] => destruct x; try discriminate
    end; injection H as -> ->; lia. }
  destruct (to_xarray_ok h0 d0) eqn:Ex; [|discriminate]. injection H as <- <-.
  rewrite (read_block_app bs extra h0 d0 E0) by lia.
  destruct (Z.eqb_spec (Z.of_nat (length (bs ++ extra)) mod block_size_of h0) 0) as [E|_];
    [contradiction|].
  rewrite andb_false_r, Ex. reflexivity.
Qed.

End Read.

(** A header decoder that reads [dtype], [latitudeGridNumber] and
    [longitudeGridNumber] from the first three bytes, and a grid block of one
    point: header, magnitude, and (for [dtype = 11]) angle. *)
Definition ex_unpack (hb : list Z) : option (MdfsGridHead unit) :=
  Some (Build_MdfsGridHead unit (nth 0 hb 0) (nth 1 hb 0) (nth 2 hb 0) tt).

Definition ex_block (dt : Z) (body : list Z) : list Z :=
  ([dt; 1; 1] ++ repeat 0 275 ++ body)%list.

Definition ex_read (bs : list Z) :=
  read unit ex_unpack (list Z) (fun l => l) (fun _ _ => true) (fun _ => true) bs.

Definition ex_vector_file : list Z :=
  (ex_block 11 [9; 9; 9; 9; 1; 2; 3; 4] ++ ex_block 11 [7; 7; 7; 7; 5; 6; 7; 8])%list.

Definition ex_head (dt : Z) : MdfsGridHead unit := Build_MdfsGridHead unit dt 1 1 tt.

(** What [read] gives for [ex_vector_file]: block 1 has its own magnitude
    [7 7 7 7] but block 0's angle [1 2 3 4], not its own [5 6 7 8]. *)
Definition ex_vector_blocks : list (MdfsGridHead unit * GridData (list Z)) :=
  [(ex_head 11, Vector (list Z) [[[9; 9; 9; 9]]] [[[1; 2; 3; 4]]]);
     (ex_head 11, Vector (list Z) [[[7; 7; 7; 7]]] [[[1; 2; 3; 4]]])].

Lemma read_multi_angle_from_file_start_witness :
  ex_read ex_vector_file = inr (Multi unit (list Z) ex_vector_blocks) /\
  exists h0 d0 others, ex_vector_blocks = (h0, d0) :: others /\
    (forall m0 a0, d0 = Vector (list Z) m0 a0 ->
       let s0 := latitudeGridNumber unit h0 * longitudeGridNumber unit h0 in
       reshape unit (list Z) h0 (floats4 (list Z) (fun l => l)
         (Diamond5.py_slice ex_vector_file (278 + s0 * 4) (278 + s0 * 4 + s0 * 4))) = inr a0) /\
    forall k h m a, nth_error others k = Some (h, Vector (list Z) m a) ->
      let s := latitudeGridNumber unit h * longitudeGridNumber unit h in
      let z := Z.of_nat (S k) in
      let blk := Diamond5.py_slice ex_vector_file (block_size_of unit h0 * z)
                   (block_size_of unit h0 * (z + 1)) in
      reshape unit (list Z) h (floats4 (list Z) (fun l => l) (Diamond5.py_slice blk 278 (278 + s * 4)))
        = inr m /\
      reshape unit (list Z) h (floats4 (list Z) (fun l => l)
        (Diamond5.py_slice ex_vector_file (278 + s * 4) (278 + s * 4 + s * 4))) = inr a /\
      (forall m0 a0, d0 = Vector (list Z) m0 a0 ->
         latitudeGridNumber unit h = latitudeGridNumber unit h0 ->
         longitudeGridNumber unit h = longitudeGridNumber unit h0 -> a = a0).
Proof.
  split; [vm_compute; reflexivity|].
  apply (read_multi_angle_from_file_start unit ex_unpack (list Z) (fun l => l)
           (fun _ _ => true) (fun _ => true)).
  vm_compute. reflexivity.
Defined.

Lemma read_multi_block_count_witness :
  exists h0 d0 others, ex_vector_blocks = (h0, d0) :: others /\
    (2 <= length ex_vector_blocks)%nat /\
    Z.of_nat (length ex_vector_blocks) * block_size_of unit h0 = Z.of_nat (length ex_vector_file).
Proof.
  apply (read_multi_block_count unit ex_unpack (list Z) (fun l => l)
           (fun _ _ => true) (fun _ => true)).
  vm_compute. reflexivity.
Defined.

Lemma read_trailing_bytes_ignored_witness :
  ex_read (ex_block 4 [9; 9; 9; 9]) = inr (Single unit (list Z) (ex_head 4) (Scalar (list Z) [[[9; 9; 9; 9]]])) /\
  ex_read (ex_block 4 [9; 9; 9; 9] ++ [0; 0]) =
    inr (Single unit (list Z) (ex_head 4) (Scalar (list Z) [[[9; 9; 9; 9]]])).
Proof.
  split; [vm_compute; reflexivity|].
  apply (read_trailing_bytes_ignored unit ex_unpack (list Z) (fun l => l)
           (fun _ _ => true) (fun _ => true)); vm_compute; first [reflexivity | discriminate].
Defined.

End MdfsGrid.


(** ** [Diamond4.read]: the header and the grid of a Diamond 4 text file *)

Module Diamond4Read.

Open Scope Z_scope.

Inductive ReadError : Type :=
| HeadTypeError       (* Diamond4Head( *data[:22]) with fewer than 20 tokens *)
| HeadValueError      (* int() or float() of a header field *)
| FloatValueError     (* np.asfarray of a body token *)
| ReshapeValueError   (* .reshape((ysize, xsize)) *)
| ToXarrayError.      (* self.to_xarray(name='var') *)

Section Read.

(** The tokens of [str.split()], Python's [int()] and [float()] on a token,
    and [float()] of a Python int (the defaults of [smooth] and [boldvalue]). *)
Variable Token : Type.
Variable F : Type.
Variable py_int : Token -> option Z.
Variable py_float : Token -> option F.
Variable float_of_int : Z -> F.

Record Diamond4Head : Type := {
  diamond : Token;
  dtype : Z;
  description : Token;
  year : Z;
  month : Z;
  day : Z;
  hour : Z;
  duration : Z;
  level : F;
  xinterval : F;
  yinterval : F;
  startlon : F;
  endlon : F;
  startlat : F;
  endlat : F;
  xsize : Z;
  ysize : Z;
  lineinteravl : F;
  startvalue : F;
  endvalue : F;
  smooth : F;
  boldvalue : F
}.

(** [len(fields(Diamond4Head))] *)
Definition headsize : nat := 22.

Local Notation "x <- e ;; k" :=
  (match e with Some x => k | None => inl HeadValueError end)
  (at level 61, e at next level, right associativity).

(** [Diamond4Head( *data[:headsize])] and its [_cast_fields_types]: 20 to 22
    positional arguments, [smooth = 1] and [boldvalue = 0] by default. *)
Definition parse_head (data : list Token) : ReadError + Diamond4Head :=
  match Diamond2.take headsize data with
  | t0 :: t1 :: t2 :: t3 :: t4 :: t5 :: t6 :: t7 :: t8 :: t9 :: t10 :: t11 :: t12
      :: t13 :: t14 :: t15 :: t16 :: t17 :: t18 :: t19 :: opt =>
    let smooth_arg := match opt with [] => Some (float_of_int 1) | t20 :: _ => py_float t20 end in
    let boldvalue_arg := match opt with _ :: t21 :: _ => py_float t21 | _ => Some (float_of_int 0) end in
    dt <- py_int t1 ;; y <- py_int t3 ;; mo <- py_int t4 ;; d <- py_int t5 ;;
    h <- py_int t6 ;; du <- py_int t7 ;; lv <- py_float t8 ;; xi <- py_float t9 ;;
    yi <- py_float t10 ;; slon <- py_float t11 ;; elon <- py_float t12 ;;
    slat <- py_float t13 ;; elat <- py_float t14 ;; xs <- py_int t15 ;; ys <- py_int t16 ;;
    li <- py_float t17 ;; sv <- py_float t18 ;; ev <- py_float t19 ;;
    sm <- smooth_arg ;; bv <- boldvalue_arg ;;
    inr {| diamond := t0; dtype := dt; description := t2; year := y; month := mo; day := d;
           hour := h; duration := du; level := lv; xinterval := xi; yinterval := yi;
           startlon := slon; endlon := elon; startlat := slat; endlat := elat;
           xsize := xs; ysize := ys; lineinteravl := li; startvalue := sv; endvalue := ev;
           smooth := sm; boldvalue := bv |}
  | _ => inl HeadTypeError
  end.

(** Whether [self.to_xarray(name='var')] succeeds on the header and grid. *)
Variable to_xarray_ok : Diamond4Head -> list (list F) -> bool.

(** [Diamond4.read] on the token list [data]: [self.head] and [self.data]. *)
Definition read (data : list Token) : ReadError + (Diamond4Head * list (list F)) :=
  match parse_head data with
  | inl e => inl e
  | inr head =>
    match Diamond2.all_floats Token F py_float (Diamond2.drop headsize data) with
    | None => inl FloatValueError
    | Some vals =>
      match Diamond2.reshape2 (Z.of_nat (length vals)) (ysize head) (xsize head) with
      | None => inl ReshapeValueError
      | Some (rows, cols) =>
        let grid := Diamond2.chunks (Z.to_nat cols) (Z.to_nat rows) vals in
        if to_xarray_ok head grid then inr (head, grid) else inl ToXarrayError
      end
    end
  end.

Lemma reshape2_nonneg (n y x : Z) :
  0 <= y -> 0 <= x ->
  Diamond2.reshape2 n y x = if y * x =? n then Some (y, x) else None.
Proof.
  intros Hy Hx. unfold Diamond2.reshape2.
  destruct (Z.ltb_spec y (-1)); [lia|]. destruct (Z.ltb_spec x (-1)); [lia|].
  destruct (Z.eqb_spec y (-1)); [lia|]. destruct (Z.eqb_spec x (-1)); [lia|].
  reflexivity.
Qed.

(** Once the header is parsed with [xsize, ysize >= 0] and every token after
    the 22nd is numeric, [read] only succeeds when there are exactly
    [ysize * xsize] of them, and its grid is then [ysize] rows of [xsize]
    values holding them in file order; conversely such a body is read
    whenever [to_xarray] accepts the grid. *)
Theorem read_grid_shape (data : list Token) (head : Diamond4Head) (vals : list F) :
  parse_head data = inr head -> 0 <= xsize head -> 0 <= ysize head ->
  Diamond2.all_floats Token F py_float (Diamond2.drop headsize data) = Some vals ->
  (forall r, read data = inr r ->
     Z.of_nat (length vals) = ysize head * xsize head /\ fst r = head /\
     length (snd r) = Z.to_nat (ysize head) /\
     Forall (fun row => length row = Z.to_nat (xsize head)) (snd r) /\
     concat (snd r) = vals) /\
  (Z.of_nat (length vals) = ysize head * xsize head ->
   to_xarray_ok head (Diamond2.chunks (Z.to_nat (xsize head)) (Z.to_nat (ysize head)) vals) = true ->
   read data = inr (head, Diamond2.chunks (Z.to_nat (xsize head)) (Z.to_nat (ysize head)) vals)).
Proof.
  intros Hp Hx Hy Hf. unfold read. rewrite Hp, Hf, reshape2_nonneg by assumption.
  split.
  - intros r Hr.
    destruct (Z.eqb_spec (ysize head * xsize head) (Z.of_nat (length vals))) as [Hn|]; [|discriminate].
    destruct (to_xarray_ok _ _); [|discriminate]. injection Hr as <-. cbn [fst snd].
    destruct (Diamond2.chunks_shape (Z.to_nat (xsize head)) (Z.to_nat (ysize head)) vals)
      as (H1 & H2 & H3); [lia|].
    repeat split; try assumption; lia.
  - intros Hn Hok. rewrite <- Hn, Z.eqb_refl, Hok. reflexivity.
Qed.

End Read.

(** The year of [inittime] in [Diamond4.to_xarray]. *)
Definition init_year (year : Z) : Z :=
  if year <? 50 then 2000 + year
  else if year <? 100 then 1900 + year
  else year.

(** [to_xarray] reads a two-digit year [0 <= year < 100] in the window
    1950-2049: the year of [inittime] lies in that window and ends in the
    two digits [year]. *)
Theorem init_year_window (year : Z) :
  0 <= year < 100 ->
  1950 <= init_year year <= 2049 /\ init_year year mod 100 = year.
Proof.
  intros Hy. unfold init_year.
  destruct (Z.ltb_spec year 50); [|destruct (Z.ltb_spec year 100); [|lia]].
  - split; [lia|]. replace (2000 + year) with (year + 20 * 100) by ring.
    rewrite Z.mod_add by lia. apply Z.mod_small. lia.
  - split; [lia|]. replace (1900 + year) with (year + 19 * 100) by ring.
    rewrite Z.mod_add by lia. apply Z.mod_small. lia.
Qed.

(** A header of 22 integer tokens with [xsize = 3] and [ysize = 2], followed
    by six values. *)
Definition ex_data : list Z :=
  [4; 4; 0; 24; 1; 15; 8; 24; 0; 1; 1; 0; 2; 0; 1; 3; 2; 0; 0; 0; 1; 0; 1; 2; 3; 4; 5; 6].

Definition ex_head : Diamond4Head Z Z :=
  {| diamond := 4; dtype := 4; description := 0; year := 24; month := 1; day := 15;
     hour := 8; duration := 24; level := 0; xinterval := 1; yinterval := 1;
     startlon := 0; endlon := 2; startlat := 0; endlat := 1; xsize := 3; ysize := 2;
     lineinteravl := 0; startvalue := 0; endvalue := 0; smooth := 1; boldvalue := 0 |}.

Lemma read_grid_shape_witness :
  read Z Z Some Some (fun z => z) (fun _ _ => true) ex_data = inr (ex_head, [[1; 2; 3]; [4; 5; 6]]).
Proof.
  destruct (read_grid_shape Z Z Some Some (fun z => z) (fun _ _ => true) ex_data ex_head
              [1; 2; 3; 4; 5; 6]) as [_ H]; [reflexivity | cbn; lia | cbn; lia | reflexivity |].
  exact (H eq_refl eq_refl).
Defined.

Lemma init_year_window_witness :
  (0 <= 24 < 100) /\ (1950 <= init_year 24 <= 2049 /\ init_year 24 mod 100 = 24) /\
  (0 <= 75 < 100) /\ (1950 <= init_year 75 <= 2049 /\ init_year 75 mod 100 = 75).
Proof.
  split; [lia|]. split; [apply init_year_window; lia|].
  split; [lia|]. apply init_year_window; lia.
Defined.

End Diamond4Read.


(** ** [args_parser] of the [mdfs_dump] command line (src/pymdfs/mdfs_dump.py) *)

Module DumpArgs.

Open Scope Z_scope.

(** [c in s] for a one-character [c]. *)
Fixpoint has_char (c : ascii) (s : string) : bool :=
  match s with
  | EmptyString => false
  | String c' r => Ascii.eqb c' c || has_char c r
  end.

(** [s.split(c)] for a one-character separator: empty pieces are kept. *)
Fixpoint split_on (c : ascii) (s : string) : list string :=
  match s with
  | EmptyString => [EmptyString]
  | String c' r =>
    if Ascii.eqb c' c then EmptyString :: split_on c r
    else match split_on c r with
         | p :: ps => String c' p :: ps
         | [] => [String c' EmptyString]
         end
  end.

(** [list(range(start, stop, step))] for [step <> 0], with CPython's length. *)
Definition range_list (start stop step : Z) : list Z :=
  let n := if 0 <? step then
             (if start <? stop then (stop - start - 1) / step + 1 else 0)
           else
             (if stop <? start then (start - stop - 1) / (- step) + 1 else 0) in
  map (fun k => start + Z.of_nat k * step) (seq 0 (Z.to_nat n)).

Section Parse.

(** Python's [int()] and [float()] on a string. *)
Variable F : Type.
Variable py_int : string -> option Z.
Variable py_float : string -> option F.

Inductive Val : Type :=
| VInt (z : Z)
| VFloat (f : F)
| VStr (s : string).

(** [typecast]: [int], else [float], else the string itself. *)
Definition typecast (s : string) : Val :=
  match py_int s with
  | Some z => VInt z
  | None => match py_float s with Some f => VFloat f | None => VStr s end
  end.

(** What [args_parser] returns: [slice(start, stop)], a list, or one value. *)
Inductive Arg : Type :=
| ASlice (start stop : Val)
| AList (l : list Val)
| AScalar (v : Val).

Inductive ArgError : Type :=
| RangeTypeError        (* range() of a float or str *)
| RangeStepValueError   (* range() arg 3 must not be zero *)
| SplitCountError.      (* "s can only be split to 2, 3" *)

Definition args_parser (s : string) : ArgError + Arg :=
  if has_char "-"%char s then
    match map typecast (split_on "-"%char s) with
    | [a; b] => inr (ASlice a b)
    | [VInt a; VInt b; VInt c] =>
      if Z.eqb c 0 then inl RangeStepValueError else inr (AList (map VInt (range_list a b c)))
    | [_; _; _] => inl RangeTypeError
    | _ => inl SplitCountError
    end
  else if has_char ","%char s then inr (AList (map typecast (split_on ","%char s)))
  else inr (AScalar (typecast s)).

Lemma has_char_app (c : ascii) (s r : string) :
  has_char c (s ++ r)%string = has_char c s || has_char c r.
Proof.
  induction s as [|c' s IH]; [reflexivity|]. cbn [append has_char]. rewrite IH, orb_assoc. reflexivity.
Qed.

Lemma split_on_nochar (c : ascii) (s : string) :
  has_char c s = false -> split_on c s = [s].
Proof.
  induction s as [|c' s IH]; [reflexivity|]. cbn [has_char split_on].
  intros H. apply orb_false_iff in H as [H1 H2]. rewrite H1, IH by exact H2. reflexivity.
Qed.

Lemma split_on_app (c : ascii) (s r : string) :
  has_char c s = false -> split_on c (s ++ String c r)%string = s :: split_on c r.
Proof.
  induction s as [|c' s IH]; cbn [append has_char split_on].
  - rewrite Ascii.eqb_refl. reflexivity.
  - intros H. apply orb_false_iff in H as [H1 H2]. rewrite H1, IH by exact H2. reflexivity.
Qed.

Lemma range_list_in (a b c x : Z) :
  0 < c -> In x (range_list a b c) <-> a <= x < b /\ (x - a) mod c = 0.
Proof.
  intros Hc. unfold range_list. destruct (Z.ltb_spec 0 c) as [_|]; [|lia].
  rewrite in_map_iff. split.
  - intros (k & <- & Hk). apply in_seq in Hk.
    destruct (Z.ltb_spec a b) as [Hab|Hab]; [|lia].
    assert (Hk' : Z.of_nat k <= (b - a - 1) / c) by lia.
    assert (Hm : c * ((b - a - 1) / c) <= b - a - 1) by (apply Z.mul_div_le; lia).
    assert (Hkc : Z.of_nat k * c <= b - a - 1) by nia.
    split; [lia|]. replace (a + Z.of_nat k * c - a) with (Z.of_nat k * c) by ring.
    apply Z.mod_mul. lia.
  - intros [[Hax Hxb] Hm]. exists (Z.to_nat ((x - a) / c)).
    assert (Hq : 0 <= (x - a) / c) by (apply Z.div_pos; lia).
    pose proof (Z.div_exact (x - a) c ltac:(lia)) as [_ Hd]. specialize (Hd Hm).
    split; [rewrite Z2Nat.id by lia; lia|].
    apply in_seq. destruct (Z.ltb_spec a b) as [_|]; [|lia].
    assert (Hle : (x - a) / c <= (b - a - 1) / c) by (apply Z.div_le_mono; lia).
    lia.
Qed.

(** A three-part argument [a-b-c] of integers with [c > 0] (such as
    [-f 24-48-6]) is [list(range(a, b, c))]: the values [a, a + c, ...]
    strictly below [b], so the stop [b] itself is never requested. *)
Theorem args_parser_range_excludes_stop (sa sb sc : string) (a b c : Z) :
  has_char "-"%char sa = false -> has_char "-"%char sb = false -> has_char "-"%char sc = false ->
  py_int sa = Some a -> py_int sb = Some b -> py_int sc = Some c -> 0 < c ->
  args_parser (sa ++ "-" ++ sb ++ "-" ++ sc)%string = inr (AList (map VInt (range_list a b c))) /\
  (forall x, In x (range_list a b c) <-> a <= x < b /\ (x - a) mod c = 0).
Proof.
  intros Ha Hb Hc Ia Ib Ic Hpos. split; [|intros x; apply range_list_in; exact Hpos].
  change ("-" ++ sb ++ "-" ++ sc)%string with (String "-"%char (sb ++ String "-"%char sc)%string).
  unfold args_parser.
  rewrite has_char_app. cbn [has_char]. rewrite Ascii.eqb_refl, orb_true_r. cbn [orb].
  rewrite split_on_app, split_on_app, split_on_nochar by assumption.
  cbn [map]. unfold typecast at 1 2 3. rewrite Ia, Ib, Ic.
  destruct (Z.eqb_spec c 0); [lia|]. reflexivity.
Qed.

Lemma split_on_nonnil (c : ascii) (s : string) : (1 <= length (split_on c s))%nat.
Proof.
  induction s as [|c' s IH]; cbn [split_on]; [cbn; lia|].
  destruct (Ascii.eqb c' c); [cbn; lia|].
  destruct (split_on c s); cbn in *; lia.
Qed.

Lemma split_on_has (c : ascii) (s : string) :
  has_char c s = true -> (2 <= length (split_on c s))%nat.
Proof.
  induction s as [|c' s IH]; cbn [has_char split_on]; [discriminate|].
  intros H. destruct (Ascii.eqb c' c) eqn:E; cbn [orb] in H.
  - cbn [length]. pose proof (split_on_nonnil c s). lia.
  - specialize (IH H). destruct (split_on c s); cbn in *; lia.
Qed.

(** An argument starting with ['-'] is never read as a number, negative or
    not: the ['-'] is taken as a separator with an empty left part ['']
    (neither an int nor a float). With no other ['-'] the result is
    [slice('', typecast(s))] ([--lat -10] gives [slice('', 10)]); with one more
    (['-1e-5'], ['-5-10']) [range('', ...)] raises a TypeError; with more,
    args_parser raises its "can only be split to 2, 3" error. *)
Theorem args_parser_leading_minus (s : string) :
  py_int ""%string = None -> py_float ""%string = None ->
  args_parser ("-" ++ s)%string =
    (if has_char "-"%char s then
       if Nat.eqb (length (split_on "-"%char s)) 2 then inl RangeTypeError else inl SplitCountError
     else inr (ASlice (VStr ""%string) (typecast s))) /\
  (forall v, args_parser ("-" ++ s)%string <> inr (AScalar v)) /\
  (forall l, args_parser ("-" ++ s)%string <> inr (AList l)).
Proof.
  intros Hi Hf.
  assert (E : args_parser ("-" ++ s)%string =
    (if has_char "-"%char s then
       if Nat.eqb (length (split_on "-"%char s)) 2 then inl RangeTypeError else inl SplitCountError
     else inr (ASlice (VStr ""%string) (typecast s)))).
  { change ("-" ++ s)%string with (String "-"%char s).
    unfold args_parser. cbn [has_char]. rewrite Ascii.eqb_refl. cbn [orb split_on].
    rewrite Ascii.eqb_refl. cbn [map].
    replace (typecast ""%string) with (VStr ""%string)
      by (unfold typecast; rewrite Hi, Hf; reflexivity).
    destruct (has_char "-"%char s) eqn:Hs.
    - pose proof (split_on_has _ _ Hs) as H2.
      destruct (split_on "-"%char s) as [|p [|q [|r rest]]]; cbn [length] in H2; try lia;
        reflexivity.
    - rewrite split_on_nochar by exact Hs. reflexivity. }
  rewrite E. split; [reflexivity|].
  split; intros v; destruct (has_char _ _); try destruct (Nat.eqb _ _); discriminate.
Qed.

End Parse.

Lemma args_parser_range_excludes_stop_witness :
  args_parser unit PyTok.dec_int (fun _ => None) "24-48-6"%string =
    inr (AList unit (map (VInt unit) [24; 30; 36; 42])) /\
  (forall x, In x (range_list 24 48 6) <-> 24 <= x < 48 /\ (x - 24) mod 6 = 0).
Proof.
  exact (args_parser_range_excludes_stop unit PyTok.dec_int (fun _ => None) "24"%string "48"%string "6"%string 24 48 6
           eq_refl eq_refl eq_refl eq_refl eq_refl eq_refl eq_refl).
Defined.

Lemma args_parser_leading_minus_witness :
  args_parser unit PyTok.dec_int (fun _ => None) "-10"%string =
    inr (ASlice unit (VStr unit ""%string) (VInt unit 10)) /\
  args_parser unit PyTok.dec_int (fun _ => None) "-1e-5"%string = inl RangeTypeError /\
  args_parser unit PyTok.dec_int (fun _ => None) "-5-10"%string = inl RangeTypeError /\
  args_parser unit PyTok.dec_int (fun _ => None) "-1-2-3"%string = inl SplitCountError.
Proof.
  split; [|split; [|split]].
  - refine (eq_trans (proj1 (args_parser_leading_minus unit PyTok.dec_int (fun _ => None)
      "10"%string eq_refl eq_refl)) _). vm_compute. reflexivity.
  - refine (eq_trans (proj1 (args_parser_leading_minus unit PyTok.dec_int (fun _ => None)
      "1e-5"%string eq_refl eq_refl)) _). vm_compute. reflexivity.
  - refine (eq_trans (proj1 (args_parser_leading_minus unit PyTok.dec_int (fun _ => None)
      "5-10"%string eq_refl eq_refl)) _). vm_compute. reflexivity.
  - refine (eq_trans (proj1 (args_parser_leading_minus unit PyTok.dec_int (fun _ => None)
      "1-2-3"%string eq_refl eq_refl)) _). vm_compute. reflexivity.
Defined.

End DumpArgs.


(** ** The end of [LatLon.read]: decompression, scaling and masking *)

Module LatLonRead.

Import LatLon LatSel.

Open Scope Z_scope.

(** The header fields the end of [read] uses. *)
Record ReadHead : Type := {
  dhead : LatLonHead;   (* rows, cols, nodata, amp *)
  compmode : Z;
  min_value : Z
}.

Inductive ReadError : Type :=
| DecompressFailed (e : DecompressError)
| Int16ScaleError    (* compmode == 0: [data] is the int16 body reshaped, and
                        [data[...] *= 1.0 / amp] cannot cast float64 back to int16 *)
| ZeroDivisionError. (* 1.0 / head.amp with amp == 0 *)

(** [data[data >= head.min_value] *= 1.0 / head.amp] then
    [data[data < 0] = np.nan], cell by cell on the float64 grid. The product
    is taken exactly in Q; float64 rounding keeps its sign. *)
Definition scale_cell (min_v amp : Z) (v : Z) : PyFloat :=
  let v' := if min_v <=? v then Fin (inject_Z v * / inject_Z amp)%Q else Fin (inject_Z v) in
  if flt v' (Fin 0) then NaN else v'.

Definition scale_and_mask (min_v amp : Z) (data : Grid) : option (list (list PyFloat)) :=
  if amp =? 0 then None
  else Some (map (map (scale_cell min_v amp)) data).

(** [self.data] after [read], from the header and the int16 body. *)
Definition read_data (head : ReadHead) (body : list Z) : ReadError + list (list PyFloat) :=
  if compmode head =? 0 then inl Int16ScaleError
  else
    match decompress (dhead head) body with
    | inl e => inl (DecompressFailed e)
    | inr data =>
      match scale_and_mask (min_value head) (amp (dhead head)) data with
      | None => inl ZeroDivisionError
      | Some d => inr d
      end
    end.

Lemma scale_cell_nonneg (min_v amp v : Z) :
  scale_cell min_v amp v = NaN \/ exists q, scale_cell min_v amp v = Fin q /\ (0 <= q)%Q.
Proof.
  unfold scale_cell.
  set (v' := if min_v <=? v then Fin (inject_Z v * / inject_Z amp)%Q else Fin (inject_Z v)).
  assert (Hv' : exists q, v' = Fin q) by (unfold v'; destruct (min_v <=? v); eexists; reflexivity).
  destruct Hv' as [q Hq]. rewrite Hq. unfold flt, fcmp.
  destruct (Qcompare q 0) eqn:E; [right|left; reflexivity|right].
  - exists q. split; [reflexivity|]. apply Qeq_alt in E. rewrite E. apply Qle_refl.
  - exists q. split; [reflexivity|]. apply Qgt_alt in E. apply Qlt_le_weak. exact E.
Qed.

(** [LatLon.read] never leaves a negative value in [self.data]: after the
    scaling, every negative cell, including legitimately negative data and a
    negative background, becomes NaN. *)
Theorem read_data_no_negative (head : ReadHead) (body : list Z) (d : list (list PyFloat)) :
  read_data head body = inr d ->
  Forall (Forall (fun x => x = NaN \/ exists q, x = Fin q /\ (0 <= q)%Q)) d.
Proof.
  unfold read_data, scale_and_mask. intros H.
  destruct (compmode head =? 0); [discriminate|].
  destruct (decompress (dhead head) body) as [|data]; [discriminate|].
  destruct (amp (dhead head) =? 0); [discriminate|]. injection H as <-.
  apply Forall_forall. intros row Hrow. apply in_map_iff in Hrow as (r & <- & _).
  apply Forall_forall. intros x Hx. apply in_map_iff in Hx as (v & <- & _).
  apply scale_cell_nonneg.
Qed.

(** A 1 x 3 grid of background -9999 (nodata -9999, amp 10, so the
    background is [int(-99990 + 0.5) = -99989]) whose last two cells hold
    -50 and 250. *)
Definition ex_head : ReadHead :=
  {| dhead := {| rows := 1; cols := 3; nodata := -9999; amp := 10 |};
     compmode := 1; min_value := -100 |}.

Lemma read_data_no_negative_witness :
  read_data ex_head [0; 1; 2; -50; 250; -1; 0; 0] =
    inr [[NaN; NaN; Fin (250 # 10)]] /\
  Forall (Forall (fun x => x = NaN \/ exists q, x = Fin q /\ (0 <= q)%Q))
    [[NaN; NaN; Fin (250 # 10)]].
Proof.
  assert (H : read_data ex_head [0; 1; 2; -50; 250; -1; 0; 0] = inr [[NaN; NaN; Fin (250 # 10)]]).
  { vm_compute. reflexivity. }
  split; [exact H|]. exact (read_data_no_negative _ _ _ H).
Defined.

End LatLonRead.



(** ** [Diamond5.to_frame]: the station index of every data row *)

Module Diamond5Frame.

Import Diamond5.

Open Scope Z_scope.

Section Frame.

Variable Token : Type.
Variable F : Type.
Variable py_int : Token -> option Z.
Variable py_float : Token -> option F.

(** The [MultiIndex] key [(stid, lon, lat, height)] of an index row, after
    its cast to [dtype_index]. *)
Variable Label : Type.
Variable index_label : list Token -> Label.















End Frame.




Definition ex_head : Diamond5Head string :=
  {| diamond := "diamond"%string; dtype := 5; description := "desc"%string; year := 2024;
     month := 1; day := 1; hour := 8; nrec := 2 |}.





End Diamond5Frame.
